(** * goether: transaction options, contract codec glue and signature recovery

    A shallow embedding of the Go package [goether] (wallet.go, contract.go,
    signer.go and the utility functions that follow contract.go) together
    with the properties of it that the specification states.

    Conventions of the embedding.
    - A Go [*big.Int] or [*int] is an [option Z]: [None] is the nil pointer.
      [big.Int] is unbounded; a Go [int] holds the value of a [Z] in the
      64-bit range and is widened to [int64] without change.
    - A Go byte is an [ascii] (eight bits); arithmetic on a byte goes
      through [N] and wraps modulo 256 ([byte_add], [byte_sub]).  A [[]byte]
      is a [list ascii]; the nil slice and the empty slice are both [[]].  A
      Go [string] is a [string], a sequence of arbitrary bytes as in Go.
    - A Go function returning [(v, err)] returns a pair whose second
      component is an [option error]: [None] is the nil error.
    - A run-time panic (nil dereference, index out of range) is the
      [Panics] outcome.
    - Calls that leave the process (JSON-RPC requests) and uses of the
      private key are recorded as events, so that what an operation sends
      can be stated.  Logging ([log.Debug], [log.Error]) is not modelled.
    - Functions of go-ethereum and of the RPC client are not part of this
      package; they are fields of the class [GoEthereum] and of the record
      [EthRPC], and every theorem holds for all of their behaviours unless
      it names a law of the library as a hypothesis. *)

From Stdlib Require Import Ascii String NArith ZArith DecimalString DecimalZ.
From stdpp Require Import base numbers list strings gmap.

Open Scope string_scope.
Open Scope list_scope.
Open Scope Z_scope.

(** ** Bytes *)

Abbreviation byte := ascii (only parsing).
Abbreviation bytes := (list ascii) (only parsing).

(** The byte with the given value. *)
Definition byte_of (n : N) : ascii := ascii_of_N (n mod 256).

(** Arithmetic on a [uint8] wraps around. *)
Definition byte_add (b : ascii) (d : N) : ascii :=
  ascii_of_N ((N_of_ascii b + d) mod 256).
Definition byte_sub (b : ascii) (d : N) : ascii :=
  ascii_of_N ((N_of_ascii b + 256 - d mod 256) mod 256).

(** [b == n], [b >= n] for a byte and a constant. *)
Definition byte_eqb (b : ascii) (n : N) : bool := (N_of_ascii b =? n)%N.
Definition byte_geb (b : ascii) (n : N) : bool := (n <=? N_of_ascii b)%N.

(** [[]byte(s)] and [string(b)]. *)
Definition bytes_of_string (s : string) : list ascii := list_ascii_of_string s.
Definition string_of_bytes (b : list ascii) : string := string_of_list_ascii b.

(** Conversion of a Go [int] to [uint64], as in [uint64(nonce)]. *)
Definition uint64_of_int (z : Z) : Z := z mod 2 ^ 64.

(** ** Errors

    One constructor for each error value the package creates, named after
    its message, and one for an error handed back by a collaborator. *)

Inductive error : Type :=
  | ErrBaseParamsNotSet
      (* errors.New("未设置基础参数"): the basic parameters are not set *)
  | ErrWalletIsNil                      (* errors.New("wallet is nil") *)
  | ErrDataTooShort                     (* errors.New("data is too short") *)
  | ErrOutputInvalidType
      (* errors.New("output 无效的类型"): output has an invalid type *)
  | ErrInvalidSigLength (len : nat)
      (* fmt.Errorf("invalid length of signture: %d", len(sig)) *)
  | ErrInvalidSigType                   (* fmt.Errorf("invalid signature type") *)
  | ErrCanNotEcrecover (cause : error)  (* fmt.Errorf("can not ecrecover: %v", err) *)
  | ErrExternal (msg : string).         (* an error of the RPC client or of go-ethereum *)

(** Outcome of a Go call that may panic. *)
Inductive outcome (A : Type) : Type :=
  | Returns (a : A)
  | Panics.
Arguments Returns {A} a.
Arguments Panics {A}.

(** ** wallet.go: transaction options and the fee helpers *)

Record TxOpts : Type := mkTxOpts {
  Nonce : option Z;
  GasLimit : option Z;
  GasPrice : option Z;
  GasTipCap : option Z;
  GasFeeCap : option Z
}.

(** [&TxOpts{}] *)
Definition emptyTxOpts : TxOpts := mkTxOpts None None None None None.

(** [func (t *TxOpts) GetOldFee()], returning [*big.Int] and [error] *)
Definition GetOldFee (t : TxOpts) : option Z * option error :=
  match GasPrice t, GasLimit t with
  | Some gasPrice, Some gasLimit => (Some (gasPrice * gasLimit), None)
  | _, _ => (None, Some ErrBaseParamsNotSet)
  end.

(** [func (t *TxOpts) GetNewFee()], returning [*big.Int] and [error] *)
Definition GetNewFee (t : TxOpts) : option Z * option error :=
  match GasTipCap t, GasFeeCap t, GasLimit t with
  | Some gasTipCap, Some gasFeeCap, Some gasLimit =>
      let totalCap := gasTipCap * 2 + gasFeeCap in
      (Some (totalCap * gasLimit), None)
  | _, _, _ => (None, Some ErrBaseParamsNotSet)
  end.

(** ** Values of type [interface{}]

    The dynamic values the package passes around: arguments of a contract
    call, unpacked results, and the [output] of [DecodeFromMethod], whose
    type switch tells a [string] and a [[]byte] from everything else. *)

Inductive any : Type :=
  | AnyString (s : string)
  | AnyBytes (b : bytes)
  | AnyInt (z : Z)
  | AnyBool (b : bool)
  | AnyAddress (a : bytes)
  | AnyNil.

(** ** Types of the collaborators *)

Module ethrpc.

(** [ethrpc.T], the fields this package fills in. *)
Record T : Type := mkT {
  From : string;
  To : string;
  Value : option Z;
  Data : string
}.

End ethrpc.

Module types.

(** [types.DynamicFeeTx], the fields [SignTx] fills in.  [Nonce] and [Gas]
    are [uint64]; [To] is the pointer [&to], never nil here. *)
Record DynamicFeeTx : Type := mkDynamicFeeTx {
  Nonce : Z;
  GasTipCap : option Z;
  GasFeeCap : option Z;
  Gas : Z;
  To : bytes;
  Value : option Z;
  Data : bytes
}.

End types.

Module abi.

(** [abi.Method], the fields this package reads.  [Arguments] is the type
    of the declared parameter list, kept abstract. *)
Record Method (Arguments : Type) : Type := mkMethod {
  Name : string;
  ID : bytes;
  Inputs : Arguments;
  Outputs : Arguments
}.
Arguments mkMethod {Arguments} _ _ _ _.
Arguments Name {Arguments} _.
Arguments ID {Arguments} _.
Arguments Inputs {Arguments} _.
Arguments Outputs {Arguments} _.

End abi.

(** The functions of go-ethereum the package calls.  Each field is named
    after the Go function; a Go [(v, err)] result is a pair. *)
Class GoEthereum : Type := {
  (* crypto/ecdsa *)
  PrivateKey : Type;
  PublicKey : Type;
  PublicKeyOf : PrivateKey -> PublicKey;            (* k.PublicKey *)
  (* common, common/hexutil *)
  Address_String : bytes -> string;                 (* common.Address.String *)
  BytesToAddress : bytes -> bytes;                  (* common.BytesToAddress *)
  hexutil_Encode : bytes -> string;
  hexutil_Decode : string -> bytes * option error;
  (* crypto, accounts *)
  Keccak256 : bytes -> bytes;
  HexToECDSA : string -> option PrivateKey * option error;
  FromECDSAPub : PublicKey -> bytes;
  PubkeyToAddress : PublicKey -> bytes;
  TextHash : bytes -> bytes;                        (* accounts.TextHash *)
  crypto_Sign : bytes -> PrivateKey -> bytes * option error;
  crypto_Ecrecover : bytes -> bytes -> bytes * option error;
  (* core/types *)
  Transaction : Type;
  SignNewTx : PrivateKey -> option Z -> types.DynamicFeeTx ->
              option Transaction * option error;
  MarshalBinary : Transaction -> bytes * option error;
  (* signer/core/apitypes *)
  TypedData : Type;
  PrimaryType : TypedData -> string;                (* typedData.PrimaryType *)
  Domain_Map : TypedData -> gmap string any;        (* typedData.Domain.Map() *)
  Message : TypedData -> gmap string any;           (* typedData.Message *)
  HashStruct : TypedData -> string -> gmap string any ->
               bytes * option error;
  (* accounts/abi *)
  ABI : Type;
  Arguments : Type;
  abi_JSON : string -> ABI * option error;          (* abi.JSON on a reader of the string *)
  abi_Methods : ABI -> list (abi.Method Arguments); (* the values of abi.Methods *)
  abi_Pack : ABI -> string -> list any -> bytes * option error;
  abi_MethodById : ABI -> bytes ->
                   option (abi.Method Arguments) * option error;
  abi_Unpack : ABI -> string -> bytes -> list any * option error;
  abi_UnpackIntoInterface : ABI -> any -> string -> bytes ->
                            any * option error;
  Arguments_UnpackIntoMap : Arguments -> gmap string any -> bytes ->
                            gmap string any * option error
}.

(** ** Events and the RPC client *)

(** What leaves the process, and every use of the private key on a
    transaction. *)
Inductive Event : Type :=
  | EthGetTransactionCount (address block : string)
  | EthEstimateGas (t : ethrpc.T)
  | EthGasPrice
  | EthSendRawTransaction (data : string)
  | KeySignNewTx (tx : types.DynamicFeeTx) (chainID : option Z).

(** The answers of an [*ethrpc.EthRPC].  An answer may depend on every
    event so far, so a record of this type stands for any behaviour of the
    node during one run. *)
Record EthRPC : Type := mkEthRPC {
  onEthGetTransactionCount : list Event -> string -> string -> Z * option error;
  onEthEstimateGas : list Event -> ethrpc.T -> Z * option error;
  onEthGasPrice : list Event -> Z * option error;
  onEthSendRawTransaction : list Event -> string -> string * option error
}.

(** A computation reads the events so far and yields an outcome and the
    events it adds, oldest first. *)
Definition M (A : Type) : Type := list Event -> outcome A * list Event.

Definition ret {A : Type} (a : A) : M A := fun _ => (Returns a, []).

Definition bind {A B : Type} (m : M A) (k : A -> M B) : M B :=
  fun h =>
    match m h with
    | (Returns a, e1) =>
        match k a (h ++ e1) with
        | (r, e2) => (r, e1 ++ e2)
        end
    | (Panics, e1) => (Panics, e1)
    end.

Definition panic {A : Type} : M A := fun _ => (Panics, []).

(** An external call: the answer is computed from the history, the event is
    recorded. *)
Definition call {A : Type} (ev : Event) (answer : list Event -> A) : M A :=
  fun h => (Returns (answer h), [ev]).

(** Dereference of a pointer: nil panics. *)
Definition deref {A : Type} (p : option A) : M A :=
  match p with
  | Some a => ret a
  | None => panic
  end.

#[global] Instance M_ret : MRet M := @ret.
#[global] Instance M_bind : MBind M := fun A B k m => bind m k.

Definition outcome_of {A : Type} (m : M A) (h : list Event) : outcome A := fst (m h).
Definition events_of {A : Type} (m : M A) (h : list Event) : list Event := snd (m h).

(** Setters for the in-place updates of [*TxOpts]. *)
Definition set_Nonce (v : option Z) (o : TxOpts) : TxOpts :=
  mkTxOpts v (GasLimit o) (GasPrice o) (GasTipCap o) (GasFeeCap o).
Definition set_GasLimit (v : option Z) (o : TxOpts) : TxOpts :=
  mkTxOpts (Nonce o) v (GasPrice o) (GasTipCap o) (GasFeeCap o).
Definition set_GasPrice (v : option Z) (o : TxOpts) : TxOpts :=
  mkTxOpts (Nonce o) (GasLimit o) v (GasTipCap o) (GasFeeCap o).
Definition set_GasTipCap (v : option Z) (o : TxOpts) : TxOpts :=
  mkTxOpts (Nonce o) (GasLimit o) (GasPrice o) v (GasFeeCap o).
Definition set_GasFeeCap (v : option Z) (o : TxOpts) : TxOpts :=
  mkTxOpts (Nonce o) (GasLimit o) (GasPrice o) (GasTipCap o) v.

(** [p == nil] *)
Definition is_nil {A : Type} (p : option A) : bool :=
  match p with
  | None => true
  | Some _ => false
  end.

Section Package.

Context `{GoEthereum}.

(** ** signer.go *)

Record Signer : Type := mkSigner {
  Signer_Address : bytes;
  key : PrivateKey
}.

(** [func NewSigner(prvHex string)], returning [*Signer] and [error]. *)
Definition NewSigner (prvHex : string) : outcome (option Signer * option error) :=
  match HexToECDSA prvHex with
  | (_, Some err) => Returns (None, Some err)
  | (Some k, None) =>
      let address := PubkeyToAddress (PublicKeyOf k) in
      Returns (Some (mkSigner address k), None)
  | (None, None) => Panics
  end.

(** [func (s Signer) GetPublicKey() []byte] *)
Definition GetPublicKey (s : Signer) : bytes :=
  FromECDSAPub (PublicKeyOf (key s)).

(** [func (s *Signer) SignTx(...)]: a dynamic-fee transaction. *)
Definition SignTx (s : Signer) (nonce : Z) (to : bytes) (amount : option Z)
    (gasLimit : Z) (gasTipCap gasFeeCap : option Z) (data : bytes)
    (chainID : option Z) : M (option Transaction * option error) :=
  let baseTx :=
    {| types.Nonce := uint64_of_int nonce;
       types.GasTipCap := gasTipCap;
       types.GasFeeCap := gasFeeCap;
       types.Gas := uint64_of_int gasLimit;
       types.To := to;
       types.Value := amount;
       types.Data := data |} in
  '(tx, err) ← call (KeySignNewTx baseTx chainID)
                    (fun _ => SignNewTx (key s) chainID baseTx);
  match err with
  | Some e => mret (None, Some e)
  | None => mret (tx, None)
  end.

(** [sig[i] += d] on a byte slice; an index out of range panics. *)
Definition add_at (i : nat) (d : N) (sig : bytes) : outcome bytes :=
  match sig !! i with
  | Some b => Returns (<[i := byte_add b d]> sig)
  | None => Panics
  end.

(** [func (s Signer) SignMsg(msg []byte) (sig []byte, err error)] *)
Definition SignMsg (s : Signer) (msg : bytes) : outcome (bytes * option error) :=
  let hash := TextHash msg in
  match crypto_Sign hash (key s) with
  | (sig, Some err) => Returns (sig, Some err)
  | (sig, None) =>
      match add_at 64 27 sig with
      | Returns sig' => Returns (sig', None)
      | Panics => Panics
      end
  end.

(** ** wallet.go *)

Record Wallet : Type := mkWallet {
  Wallet_Address : bytes;
  ChainID : option Z;
  Wallet_Signer : Signer;
  Wallet_Client : EthRPC
}.

(** [func (w *Wallet) GetAddress() string] *)
Definition Wallet_GetAddress (w : Wallet) : string :=
  Address_String (Wallet_Address w).

(** [func (w *Wallet) GetPendingNonce() (nonce int, err error)] *)
Definition GetPendingNonce (w : Wallet) : M (Z * option error) :=
  call (EthGetTransactionCount (Wallet_GetAddress w) "pending")
       (fun h => onEthGetTransactionCount (Wallet_Client w) h
                   (Wallet_GetAddress w) "pending").

(** Sequencing of the blocks of [InitTxOpts]: a block that returns an error
    ends the function; the record stays as that block left it. *)
Definition and_then (m : M (TxOpts * option error))
    (k : TxOpts -> M (TxOpts * option error)) : M (TxOpts * option error) :=
  '(opts, err) ← m;
  match err with
  | Some e => mret (opts, Some e)
  | None => k opts
  end.

(** [func (w *Wallet) InitTxOpts(to, amount, data, opts)], returning
    [*TxOpts] and [error].

    The record behind [opts] is updated in place.  The first component of
    the result is that record after the call; Go returns the pointer to it
    when the error is nil and a nil pointer otherwise. *)
Definition InitTxOpts (w : Wallet) (to : bytes) (amount : option Z)
    (data : bytes) (opts : option TxOpts) : M (TxOpts * option error) :=
  let opts := match opts with
              | None => emptyTxOpts
              | Some o => o
              end in
  and_then
    (if is_nil (Nonce opts) then
       '(nonce, err) ← GetPendingNonce w;
       match err with
       | Some e => mret (opts, Some e)
       | None => mret (set_Nonce (Some nonce) opts, None)
       end
     else mret (opts, None))
    (fun opts =>
  and_then
    (if is_nil (GasLimit opts) then
       let ethrpcTx :=
         {| ethrpc.From := Address_String (Wallet_Address w);
            ethrpc.To := Address_String to;
            ethrpc.Value := amount;
            ethrpc.Data := hexutil_Encode data |} in
       '(gasLimit, err) ← call (EthEstimateGas ethrpcTx)
                               (fun h => onEthEstimateGas (Wallet_Client w) h ethrpcTx);
       match err with
       | Some e => mret (opts, Some e)
       | None => mret (set_GasLimit (Some gasLimit) opts, None)
       end
     else mret (opts, None))
    (fun opts =>
  and_then
    (if is_nil (GasPrice opts) then
       '(gasPrice, err) ← call EthGasPrice
                               (fun h => onEthGasPrice (Wallet_Client w) h);
       match err with
       | Some e => mret (opts, Some e)
       | None => mret (set_GasPrice (Some gasPrice) opts, None)
       end
     else mret (opts, None))
    (fun opts =>
  let opts :=
    if is_nil (GasTipCap opts) || is_nil (GasFeeCap opts) then
      set_GasFeeCap (GasPrice opts) (set_GasTipCap (GasPrice opts) opts)
    else opts in
  mret (opts, None)))).

(** [func (w *Wallet) SendTx(to, amount, data, opts) (txHash string, err error)] *)
Definition SendTx (w : Wallet) (to : bytes) (amount : option Z)
    (data : bytes) (opts : option TxOpts) : M (string * option error) :=
  '(opts, err) ← InitTxOpts w to amount data opts;
  match err with
  | Some e => mret ("", Some e)
  | None =>
      let amount := match amount with
                    | None => Some 0
                    | Some a => Some a
                    end in
      nonce ← deref (Nonce opts);
      gasLimit ← deref (GasLimit opts);
      '(tx, err) ← SignTx (Wallet_Signer w) nonce to amount gasLimit
                          (GasTipCap opts) (GasFeeCap opts) data (ChainID w);
      match err with
      | Some e => mret ("", Some e)
      | None =>
          tx ← deref tx;
          match MarshalBinary tx with
          | (_, Some e) => mret ("", Some e)
          | (raw, None) =>
              '(txHash, err) ← call (EthSendRawTransaction (hexutil_Encode raw))
                                    (fun h => onEthSendRawTransaction (Wallet_Client w) h
                                                (hexutil_Encode raw));
              match err with
              | Some e => mret (txHash, Some e)
              | None => mret (txHash, None)
              end
          end
      end
  end.

(** ** contract.go *)

Record Contract : Type := mkContract {
  Contract_Address : bytes;
  Contract_ABI : ABI;
  Contract_Wallet : option Wallet;
  Contract_Client : EthRPC
}.

(** [func NewContract(address common.Address, abiStr, rpc string, wallet *Wallet)],
    returning [*Contract] and [error].  The first statement reads
    [wallet.Address], and the result takes its client from [wallet.Client]:
    a nil [wallet] panics. *)
Definition NewContract (address : bytes) (abiStr rpc : string)
    (wallet : option Wallet) : outcome (option Contract * option error) :=
  match wallet with
  | None => Panics
  | Some w =>
      match abi_JSON abiStr with
      | (_, Some err) => Returns (None, Some err)
      | (Abi, None) =>
          Returns (Some (mkContract address Abi (Some w) (Wallet_Client w)), None)
      end
  end.

(** [func (c *Contract) EncodeData(methodName string, args ...interface{})] *)
Definition EncodeData (c : Contract) (methodName : string) (args : list any)
    : bytes * option error :=
  match abi_Pack (Contract_ABI c) methodName args with
  | (_, Some err) => ([], Some err)
  | (data, None) => (data, None)
  end.

(** [func (c *Contract) ExecMethod(methodName string, opts *TxOpts, args ...interface{})] *)
Definition ExecMethod (c : Contract) (methodName : string) (opts : option TxOpts)
    (args : list any) : M (string * option error) :=
  match Contract_Wallet c with
  | None => mret ("", Some ErrWalletIsNil)
  | Some w =>
      match EncodeData c methodName args with
      | (_, Some e) => mret ("", Some e)
      | (data, None) =>
          '(txHash, err) ← SendTx w (Contract_Address c) (Some 0) data opts;
          match err with
          | Some e => mret (txHash, Some e)
          | None => mret (txHash, None)
          end
      end
  end.

(** [func (c *Contract) DecodeData(data []byte)], returning [methodName],
    [params] and [err].  [params] is [None] while the map is still nil. *)
Definition DecodeData (c : Contract) (data : bytes)
    : outcome (string * option (gmap string any) * option error) :=
  if (length data <? 4)%nat then
    Returns ("", None, Some ErrDataTooShort)
  else
    match abi_MethodById (Contract_ABI c) (take 4 data) with
    | (_, Some err) => Returns ("", None, Some err)
    | (None, None) => Panics
    | (Some method, None) =>
        let methodName := abi.Name method in
        match Arguments_UnpackIntoMap (abi.Inputs method) ∅ (drop 4 data) with
        | (params, err) => Returns (methodName, Some params, err)
        end
    end.

(** The [[]byte] behind [output] in [DecodeFromMethod]: the type switch and
    the hex decoding of a string. *)
Definition output_data (output : any) : bytes * option error :=
  match output with
  | AnyString value =>
      match hexutil_Decode value with
      | (_, Some err) => ([], Some err)
      | (d, None) => (d, None)
      end
  | AnyBytes value => (value, None)
  | _ => ([], Some ErrOutputInvalidType)
  end.

(** [func (c *Contract) DecodeFromMethod(method string, output any, results *[]any) error]

    [results] is [None] for a nil pointer; the function then works on a
    slice of its own.  The first component of the result is the slice behind
    [results] after the call.  [UnpackIntoInterface] writes through the
    pointer held in [res[0]]; the element of the model is the value written. *)
Definition DecodeFromMethod (c : Contract) (method : string) (output : any)
    (results : option (list any)) : list any * option error :=
  let results := match results with
                 | None => []
                 | Some r => r
                 end in
  match output_data output with
  | (_, Some err) => (results, Some err)
  | (data, None) =>
      if (length data =? 0)%nat then ([], None)
      else
        match results with
        | [] => abi_Unpack (Contract_ABI c) method data
        | res0 :: rest =>
            match abi_UnpackIntoInterface (Contract_ABI c) res0 method data with
            | (v, err) => (v :: rest, err)
            end
        end
  end.

(** ** Utility functions (the file that follows contract.go) *)

(** [s[n:]]: panics when [n] exceeds the length. *)
Definition slice_from (n : nat) (s : bytes) : outcome bytes :=
  if (n <=? length s)%nat then Returns (drop n s) else Panics.

(** [common.Address{}] *)
Definition zeroAddress : bytes := replicate 20 (byte_of 0).

(** [fmt.Sprintf] on string operands, for formats made of literal bytes,
    [%%] and the verb [%s]: a verb without operand prints [%!s(MISSING)],
    operands left over are reported at the end. *)
Definition Sprintf_extra (args : list string) : string :=
  match args with
  | [] => ""
  | a :: rest =>
      "%!(EXTRA string=" +:+ a +:+
      fold_right (fun b acc => ", string=" +:+ b +:+ acc) ")" rest
  end.

Fixpoint Sprintf (format : string) (args : list string) : string :=
  match format with
  | EmptyString => Sprintf_extra args
  | String "%" (String "s" rest) =>
      match args with
      | a :: args' => a +:+ Sprintf rest args'
      | [] => "%!s(MISSING)" +:+ Sprintf rest []
      end
  | String "%" (String "%" rest) => String "%" (Sprintf rest args)
  | String ch rest => String ch (Sprintf rest args)
  end.

(** The format ["\x19\x01%s%s"] of [EIP712Hash]. *)
Definition eip712_format : string :=
  String (byte_of 25) (String (byte_of 1) "%s%s").

(** [func EIP712Hash(typedData apitypes.TypedData) (hash []byte, err error)] *)
Definition EIP712Hash (typedData : TypedData) : bytes * option error :=
  match HashStruct typedData "EIP712Domain" (Domain_Map typedData) with
  | (_, Some err) => ([], Some err)
  | (domainSeparator, None) =>
      match HashStruct typedData (PrimaryType typedData) (Message typedData) with
      | (_, Some err) => ([], Some err)
      | (typedDataHash, None) =>
          let rawData :=
            bytes_of_string
              (Sprintf eip712_format
                 [string_of_bytes domainSeparator; string_of_bytes typedDataHash]) in
          (Keccak256 rawData, None)
      end
  end.

(** The last part of [Ecrecover]: the call of the curve's recovery
    primitive on the signature it is given, and the derivation of the
    address from the recovered key, [publicBy[1:]] hashed and cut to its
    last 20 bytes. *)
Definition Ecrecover_recovered (hash sig : bytes)
    : outcome (bytes * bytes * option error) :=
  match crypto_Ecrecover hash sig with
  | (publicBy, Some err) =>
      Returns (publicBy, zeroAddress, Some (ErrCanNotEcrecover err))
  | (publicBy, None) =>
      match slice_from 1 publicBy with
      | Panics => Panics
      | Returns tail =>
          match slice_from 12 (Keccak256 tail) with
          | Panics => Panics
          | Returns last20 => Returns (publicBy, BytesToAddress last20, None)
          end
      end
  end.

(** [func Ecrecover(hash, signature []byte) (publicBy []byte, address common.Address, err error)]

    [sig] is a copy of [signature]; the caller's slice is not written. *)
Definition Ecrecover (hash signature : bytes)
    : outcome (bytes * bytes * option error) :=
  let sig := signature in
  if negb (length sig =? 65)%nat then
    Returns ([], zeroAddress, Some (ErrInvalidSigLength (length sig)))
  else
    match sig !! 64%nat with
    | None => Panics
    | Some v =>
        if negb (byte_eqb v 27) && negb (byte_eqb v 28)
           && negb (byte_eqb v 1) && negb (byte_eqb v 0) then
          Returns ([], zeroAddress, Some ErrInvalidSigType)
        else
          let sig := if byte_geb v 27 then <[64%nat := byte_sub v 27]> sig else sig in
          Ecrecover_recovered hash sig
    end.

End Package.

(** ** What the package relies on from go-ethereum

    Facts about the library that concern results the package combines.
    They are hypotheses of the theorems that name them, nothing more. *)

(** [crypto] and [accounts]: digests are 32 bytes, an encoded public key is
    65 bytes, an address is the last 20 bytes of the digest of the key
    without its first byte, and a signature made by [crypto.Sign] over a
    32-byte hash is 65 bytes, ends in the recovery id 0 or 1, and recovers
    to the signing key's public key. *)
Record CryptoLaws `{GoEthereum} : Prop := {
  TextHash_length : forall msg : bytes, length (TextHash msg) = 32%nat;
  Keccak256_length : forall b : bytes, length (Keccak256 b) = 32%nat;
  FromECDSAPub_length : forall p : PublicKey, length (FromECDSAPub p) = 65%nat;
  PubkeyToAddress_Keccak256 : forall p : PublicKey,
    PubkeyToAddress p
    = BytesToAddress (drop 12 (Keccak256 (drop 1 (FromECDSAPub p))));
  Sign_Ecrecover : forall (hash : bytes) (k : PrivateKey),
    length hash = 32%nat ->
    exists (sig : bytes) (v : ascii),
      crypto_Sign hash k = (sig, None)
      /\ length sig = 65%nat
      /\ sig !! 64%nat = Some v
      /\ (N_of_ascii v = 0%N \/ N_of_ascii v = 1%N)
      /\ crypto_Ecrecover hash sig = (FromECDSAPub (PublicKeyOf k), None)
}.

(** [accounts/abi]: [MethodById] answers with a declared method whose ID is
    the first four bytes it is given, and with an error when no declared
    method has that ID. *)
Record AbiLaws `{GoEthereum} : Prop := {
  MethodById_found : forall (a : ABI) (sigdata : bytes) (m : abi.Method Arguments),
    abi_MethodById a sigdata = (Some m, None) ->
    m ∈ abi_Methods a /\ abi.ID m = take 4 sigdata;
  MethodById_unknown : forall (a : ABI) (sigdata : bytes),
    (forall m, m ∈ abi_Methods a -> abi.ID m <> take 4 sigdata) ->
    exists e, abi_MethodById a sigdata = (None, Some e)
}.

(** ** What an execution of a contract method may emit

    The property of an event that [ExecMethod] is shown to keep for a
    contract [c] with wallet [w]: a gas estimate is asked for a transfer of
    value zero; the key signs only a transaction to the contract with value
    zero, for the wallet's chain; and what is sent to the node is the hex
    form of the binary form of such a signed transaction. *)
Definition carries_zero_value `{GoEthereum} (c : Contract) (w : Wallet)
    (ev : Event) : Prop :=
  match ev with
  | EthGetTransactionCount _ _ => True
  | EthGasPrice => True
  | EthEstimateGas t => ethrpc.Value t = Some 0
  | KeySignNewTx tx chainID =>
      types.Value tx = Some 0
      /\ types.To tx = Contract_Address c
      /\ chainID = ChainID w
  | EthSendRawTransaction data =>
      exists (tx : types.DynamicFeeTx) (signed : Transaction) (raw : bytes),
        types.Value tx = Some 0
        /\ types.To tx = Contract_Address c
        /\ SignNewTx (key (Wallet_Signer w)) (ChainID w) tx = (Some signed, None)
        /\ MarshalBinary signed = (raw, None)
        /\ data = hexutil_Encode raw
  end.

(** ** A test double for the collaborators

    A small, computable instance of [GoEthereum] and of [EthRPC], used to
    run the package on concrete inputs.  Hex coding and [BytesToAddress]
    follow the library; the digest, the keys and the codecs are stand-ins
    that keep the shape of the real results (lengths, recovery byte, error
    cases) and none of their cryptography. *)

Module Mock.

Definition hex_digit (n : N) : ascii :=
  if (n <? 10)%N then ascii_of_N (48 + n) else ascii_of_N (87 + n).

Definition hex_of_bytes (b : bytes) : string :=
  string_of_list_ascii
    (flat_map (fun c => [hex_digit (N_of_ascii c / 16); hex_digit (N_of_ascii c mod 16)]) b).

Definition hex_value (c : ascii) : option N :=
  let n := N_of_ascii c in
  if (48 <=? n)%N && (n <=? 57)%N then Some (n - 48)%N
  else if (97 <=? n)%N && (n <=? 102)%N then Some (n - 87)%N
  else if (65 <=? n)%N && (n <=? 70)%N then Some (n - 55)%N
  else None.

Fixpoint bytes_of_hex (l : list ascii) : option bytes :=
  match l with
  | [] => Some []
  | hi :: lo :: rest =>
      match hex_value hi, hex_value lo, bytes_of_hex rest with
      | Some h, Some l, Some r => Some (ascii_of_N (16 * h + l) :: r)
      | _, _, _ => None
      end
  | _ :: [] => None
  end.

Definition Encode (b : bytes) : string := "0x" +:+ hex_of_bytes b.

Definition Decode (input : string) : bytes * option error :=
  match input with
  | EmptyString => ([], Some (ErrExternal "empty hex string"))
  | String "0" (String x rest) =>
      if byte_eqb x 120 || byte_eqb x 88 then
        match bytes_of_hex (list_ascii_of_string rest) with
        | Some b => (b, None)
        | None => ([], Some (ErrExternal "invalid hex string"))
        end
      else ([], Some (ErrExternal "hex string without 0x prefix"))
  | _ => ([], Some (ErrExternal "hex string without 0x prefix"))
  end.

Definition toAddress (b : bytes) : bytes :=
  let b := drop (length b - 20) b in
  replicate (20 - length b) (byte_of 0) ++ b.

(** A 32-byte stand-in for a digest. *)
Definition digest (b : bytes) : bytes :=
  let s := fold_right (fun c acc => (N_of_ascii c + 31 * acc) mod 65521)%N 7%N b in
  map (fun i => byte_of (s / (N.of_nat i + 1) + N.of_nat i)) (seq 0 32).

(** Keys are numbers; the encoded public key is 0x04 and 64 bytes. *)
Definition pubBytes (p : N) : bytes :=
  byte_of 4 :: map (fun i => byte_of (p / (N.of_nat i + 1) + 3 * N.of_nat i)) (seq 0 64).

Definition sign (hash : bytes) (k : N) : bytes * option error :=
  if (length hash =? 32)%nat then
    (drop 1 (pubBytes k) ++ [byte_of (k mod 2)], None)
  else ([], Some (ErrExternal "hash is required to be exactly 32 bytes")).

Definition recover (hash sig : bytes) : bytes * option error :=
  match sig !! 64%nat with
  | Some v =>
      if (length sig =? 65)%nat && (N_of_ascii v <? 4)%N then
        (byte_of 4 :: take 64 sig, None)
      else ([], Some (ErrExternal "invalid signature recovery id"))
  | None => ([], Some (ErrExternal "invalid signature length"))
  end.

Definition method_named (name : string) (m : abi.Method (list string)) : bool :=
  bool_decide (abi.Name m = name).
Definition method_with_id (id : bytes) (m : abi.Method (list string)) : bool :=
  bool_decide (abi.ID m = id).

Definition pack (ms : list (abi.Method (list string))) (name : string)
    (args : list any) : bytes * option error :=
  match find (method_named name) ms with
  | Some m =>
      if (length args =? length (abi.Inputs m))%nat then
        (abi.ID m ++ replicate (32 * length args) (byte_of 0), None)
      else ([], Some (ErrExternal "argument count mismatch"))
  | None => ([], Some (ErrExternal "method not found"))
  end.

Definition methodById (ms : list (abi.Method (list string))) (sigdata : bytes)
    : option (abi.Method (list string)) * option error :=
  if (length sigdata <? 4)%nat then (None, Some (ErrExternal "data too short"))
  else
    match find (method_with_id (take 4 sigdata)) ms with
    | Some m => (Some m, None)
    | None => (None, Some (ErrExternal "no method with id"))
    end.

Fixpoint unpackIntoMap (names : list string) (v : gmap string any) (data : bytes)
    : gmap string any * option error :=
  match names with
  | [] => (v, None)
  | name :: rest =>
      if (length data <? 32)%nat then (v, Some (ErrExternal "abi: truncated data"))
      else unpackIntoMap rest (<[name := AnyBytes (take 32 data)]> v) (drop 32 data)
  end.

Definition unpack (ms : list (abi.Method (list string))) (name : string)
    (data : bytes) : list any * option error :=
  match find (method_named name) ms with
  | Some m =>
      if (length data =? 32 * length (abi.Outputs m))%nat then
        (map (fun i => AnyBytes (take 32 (drop (32 * i) data)))
             (seq 0 (length (abi.Outputs m))), None)
      else ([], Some (ErrExternal "abi: improperly formatted output"))
  | None => ([], Some (ErrExternal "method not found"))
  end.

Record typedData : Type := mkTypedData {
  primaryType : string;
  domain : gmap string any;
  message : gmap string any;
  declared : list string
}.

Definition hashStruct (td : typedData) (name : string) (data : gmap string any)
    : bytes * option error :=
  if bool_decide (name ∈ declared td) then
    (digest (bytes_of_string name ++ [byte_of (N.of_nat (size data))]), None)
  else ([], Some (ErrExternal "type is not declared")).

(** The two methods of an ERC-20 token that the examples use. *)
Definition transfer : abi.Method (list string) :=
  abi.mkMethod "transfer" [byte_of 169; byte_of 5; byte_of 156; byte_of 187]
               ["dst"; "wad"] [EmptyString].

Definition balanceOf : abi.Method (list string) :=
  abi.mkMethod "balanceOf" [byte_of 112; byte_of 160; byte_of 130; byte_of 49]
               [EmptyString] [EmptyString].

#[export] Instance lib : GoEthereum := {|
  PrivateKey := N;
  PublicKey := N;
  PublicKeyOf := fun k => (3 * k + 1)%N;
  Address_String := Encode;
  BytesToAddress := toAddress;
  hexutil_Encode := Encode;
  hexutil_Decode := Decode;
  Keccak256 := digest;
  HexToECDSA := fun s =>
    match bytes_of_hex (list_ascii_of_string s) with
    | Some b => (Some (N.of_nat (length b)), None)
    | None => (None, Some (ErrExternal "invalid hex character"))
    end;
  FromECDSAPub := pubBytes;
  PubkeyToAddress := fun p => toAddress (drop 12 (digest (drop 1 (pubBytes p))));
  TextHash := fun msg => digest (bytes_of_string "Ethereum Signed Message:" ++ msg);
  crypto_Sign := fun hash k => sign hash (3 * k + 1)%N;
  crypto_Ecrecover := recover;
  Transaction := types.DynamicFeeTx * bytes;
  SignNewTx := fun k chainID tx => (Some (tx, fst (sign (digest (types.Data tx)) k)), None);
  MarshalBinary := fun t => (byte_of 2 :: types.Data (fst t) ++ snd t, None);
  TypedData := typedData;
  PrimaryType := primaryType;
  Domain_Map := domain;
  Message := message;
  HashStruct := hashStruct;
  ABI := list (abi.Method (list string));
  Arguments := list string;
  abi_JSON := fun abiStr =>
    match abiStr with
    | EmptyString => ([], Some (ErrExternal "unexpected end of JSON input"))
    | _ => ([balanceOf; transfer], None)
    end;
  abi_Methods := fun ms => ms;
  abi_Pack := pack;
  abi_MethodById := methodById;
  abi_Unpack := unpack;
  abi_UnpackIntoInterface := fun ms res0 name data =>
    match unpack ms name data with
    | (v :: _, None) => (v, None)
    | (_, Some e) => (res0, Some e)
    | ([], None) => (res0, None)
    end;
  Arguments_UnpackIntoMap := unpackIntoMap
|}.

(** A node that answers every request with fixed values. *)
Definition node (nonce gas price : Z) : EthRPC :=
  {| onEthGetTransactionCount := fun _ _ _ => (nonce, None);
     onEthEstimateGas := fun _ _ => (gas, None);
     onEthGasPrice := fun _ => (price, None);
     onEthSendRawTransaction := fun _ raw => (raw, None) |}.

(** A node that is down. *)
Definition deadNode : EthRPC :=
  {| onEthGetTransactionCount := fun _ _ _ => (0, Some (ErrExternal "connection refused"));
     onEthEstimateGas := fun _ _ => (0, Some (ErrExternal "connection refused"));
     onEthGasPrice := fun _ => (0, Some (ErrExternal "connection refused"));
     onEthSendRawTransaction := fun _ _ => ("", Some (ErrExternal "connection refused")) |}.

(** A signer for key 1, its wallet on chain 1, and an ERC-20 contract. *)
Definition signer : Signer := mkSigner (PubkeyToAddress (PublicKeyOf 1%N)) 1%N.

Definition wallet (client : EthRPC) : Wallet :=
  mkWallet (Signer_Address signer) (Some 1) signer client.

Definition recipient : bytes := toAddress [byte_of 1].

Definition erc20 : list (abi.Method (list string)) := [balanceOf; transfer].

Definition token (w : option Wallet) (client : EthRPC) : Contract :=
  mkContract (toAddress [byte_of 18; byte_of 52]) erc20 w client.

End Mock.

(** ** What a resolution asks the node

    Vocabulary for the properties of [InitTxOpts] and [SendTx]. *)

(** The estimate request [InitTxOpts] builds for a transfer. *)
Definition estimate_request `{GoEthereum} (w : Wallet) (to : bytes)
    (amount : option Z) (data : bytes) : ethrpc.T :=
  {| ethrpc.From := Address_String (Wallet_Address w);
     ethrpc.To := Address_String to;
     ethrpc.Value := amount;
     ethrpc.Data := hexutil_Encode data |}.

(** The requests for the fields a record leaves unset, in the order of the
    blocks of [InitTxOpts]. *)
Definition requests_for `{GoEthereum} (w : Wallet) (to : bytes)
    (amount : option Z) (data : bytes) (opts : TxOpts) : list Event :=
  (if is_nil (Nonce opts)
   then [EthGetTransactionCount (Wallet_GetAddress w) "pending"] else [])
  ++ (if is_nil (GasLimit opts)
      then [EthEstimateGas (estimate_request w to amount data)] else [])
  ++ (if is_nil (GasPrice opts) then [EthGasPrice] else []).

(** The error, if any, in the answer of a client to a request made after
    the events [h]. *)
Definition answer_error (c : EthRPC) (h : list Event) (ev : Event) : option error :=
  match ev with
  | EthGetTransactionCount address block => snd (onEthGetTransactionCount c h address block)
  | EthEstimateGas t => snd (onEthEstimateGas c h t)
  | EthGasPrice => snd (onEthGasPrice c h)
  | EthSendRawTransaction data => snd (onEthSendRawTransaction c h data)
  | KeySignNewTx _ _ => None
  end.

(** A request of [InitTxOpts]: neither a signature nor a submission. *)
Definition is_query (ev : Event) : bool :=
  match ev with
  | EthGetTransactionCount _ _ | EthEstimateGas _ | EthGasPrice => true
  | EthSendRawTransaction _ | KeySignNewTx _ _ => false
  end.

(** The transaction [SendTx] hands to the signer for resolved options. *)
Definition transaction_of (to : bytes) (amount : option Z) (data : bytes)
    (nonce gasLimit : Z) (opts : TxOpts) : types.DynamicFeeTx :=
  {| types.Nonce := uint64_of_int nonce;
     types.GasTipCap := GasTipCap opts;
     types.GasFeeCap := GasFeeCap opts;
     types.Gas := uint64_of_int gasLimit;
     types.To := to;
     types.Value := Some (default 0 amount);
     types.Data := data |}.

(** ** The rest of the package

    The functions of signer.go, wallet.go, contract.go and the utilities
    that the sections above leave out, with the further library functions
    they call. *)

Module abiEvent.

(** [abi.Event], the fields this package reads. *)
Record Event (Arguments : Type) : Type := mkEvent {
  Name : string;
  ID : bytes;
  Inputs : Arguments
}.
Arguments mkEvent {Arguments} _ _ _.
Arguments Name {Arguments} _.
Arguments ID {Arguments} _.
Arguments Inputs {Arguments} _.

End abiEvent.

Module legacy.

(** [types.LegacyTx] as [types.NewTransaction] fills it in. *)
Record Tx : Type := mkTx {
  Nonce : Z;
  GasPrice : option Z;
  Gas : Z;
  To : bytes;
  Value : option Z;
  Data : bytes
}.

End legacy.

(** Further functions of the libraries.  [abi.Arguments] is a slice of
    [abi.Argument]: [Arguments_items] reads it as a list and [Arguments_of]
    builds one by appending. *)
Class Libraries `{GoEthereum} : Type := {
  (* math/big *)
  Int_String : option Z -> string;                  (* String of a *big.Int, nil too *)
  Int_SetString10 : string -> option Z;             (* new(big.Int).SetString(s, 10) *)
  (* common *)
  FromHex : string -> bytes;                        (* common.FromHex *)
  HexToHash : string -> bytes;                      (* common.HexToHash *)
  (* accounts/abi *)
  Argument : Type;
  Argument_Indexed : Argument -> bool;              (* arg.Indexed *)
  Arguments_items : Arguments -> list Argument;
  Arguments_of : list Argument -> Arguments;
  abi_EventByID : ABI -> bytes ->
                  option (abiEvent.Event Arguments) * option error;
  ParseTopicsIntoMap : gmap string any -> Arguments -> list bytes ->
                       gmap string any * option error;
  (* core/types: types.SignTx of a legacy transaction with the EIP-155
     signer of the chain id *)
  SignLegacy : PrivateKey -> option Z -> legacy.Tx ->
               option Transaction * option error;
  (* ethrpc *)
  ClientOption : Type;                              (* func(rpc *ethrpc.EthRPC) *)
  ethrpc_New : string -> list ClientOption -> EthRPC;
  NetVersion : EthRPC -> string * option error;
  (* crypto, crypto/ecies; [Rand] is the state of rand.Reader *)
  UnmarshalPubkey : bytes -> option PublicKey * option error;
  Rand : Type;
  ecies_Encrypt : Rand -> PublicKey -> bytes -> bytes * option error;
  ecies_Decrypt : PrivateKey -> bytes -> bytes * option error
}.

(** [errors.New("no topics found")] and [fmt.Errorf("wrong chainID: %s", version)],
    as errors that carry their message. *)
Definition ErrNoTopicsFound : error := ErrExternal "no topics found".
Definition ErrWrongChainID (version : string) : error :=
  ErrExternal (Sprintf "wrong chainID: %s" [version]).

Section PackageRest.

Context `{Libraries}.

(** *** signer.go *)

(** [func (s Signer) GetPublicKeyHex() string] *)
Definition GetPublicKeyHex (s : Signer) : string :=
  hexutil_Encode (GetPublicKey s).

(** [func (s Signer) SignTypedData(typedData apitypes.TypedData) (sig []byte, err error)] *)
Definition SignTypedData (s : Signer) (typedData : TypedData)
    : outcome (bytes * option error) :=
  match EIP712Hash typedData with
  | (_, Some err) => Returns ([], Some err)
  | (hash, None) =>
      match crypto_Sign hash (key s) with
      | (sig, Some err) => Returns (sig, Some err)
      | (sig, None) =>
          match add_at 64 27 sig with
          | Returns sig' => Returns (sig', None)
          | Panics => Panics
          end
      end
  end.

(** [func (s Signer) Decrypt(ct []byte) ([]byte, error)] *)
Definition Decrypt (s : Signer) (ct : bytes) : bytes * option error :=
  ecies_Decrypt (key s) ct.

(** What a legacy send emits: the requests of the resolution and of the
    submission, and the use of the key on a legacy transaction. *)
Inductive LegacyEvent : Type :=
  | Asked (ev : Event)
  | KeySignLegacyTx (tx : legacy.Tx) (chainID : option Z).

(** [func (s *Signer) SignLegacyTx(...)] *)
Definition SignLegacyTx (s : Signer) (nonce : Z) (to : bytes) (amount : option Z)
    (gasLimit : Z) (gasPrice : option Z) (data : bytes) (chainID : option Z)
    : outcome (option Transaction * option error) * list LegacyEvent :=
  let tx :=
    {| legacy.Nonce := uint64_of_int nonce;
       legacy.GasPrice := gasPrice;
       legacy.Gas := uint64_of_int gasLimit;
       legacy.To := to;
       legacy.Value := amount;
       legacy.Data := data |} in
  match SignLegacy (key s) chainID tx with
  | (_, Some err) => (Returns (None, Some err), [KeySignLegacyTx tx chainID])
  | (None, None) => (Panics, [KeySignLegacyTx tx chainID])
  | (Some signed, None) => (Returns (Some signed, None), [KeySignLegacyTx tx chainID])
  end.

(** *** wallet.go: [SendLegacyTx] *)

(** [func (w *Wallet) SendLegacyTx(to, amount, data, opts) (txHash string, err error)],
    run after the events [h].  The node sees the requests only. *)
Definition SendLegacyTx (w : Wallet) (to : bytes) (amount : option Z) (data : bytes)
    (opts : option TxOpts) (h : list Event)
    : outcome (string * option error) * list LegacyEvent :=
  match InitTxOpts w to amount data opts h with
  | (Panics, pre) => (Panics, map Asked pre)
  | (Returns (_, Some e), pre) => (Returns ("", Some e), map Asked pre)
  | (Returns (opts, None), pre) =>
      let amount := match amount with
                    | None => Some 0
                    | Some a => Some a
                    end in
      match Nonce opts, GasLimit opts with
      | Some nonce, Some gasLimit =>
          match SignLegacyTx (Wallet_Signer w) nonce to amount gasLimit
                  (GasPrice opts) data (ChainID w) with
          | (Panics, signing) => (Panics, map Asked pre ++ signing)
          | (Returns (_, Some e), signing) =>
              (Returns ("", Some e), map Asked pre ++ signing)
          | (Returns (None, None), signing) => (Panics, map Asked pre ++ signing)
          | (Returns (Some tx, None), signing) =>
              match MarshalBinary tx with
              | (_, Some e) => (Returns ("", Some e), map Asked pre ++ signing)
              | (raw, None) =>
                  (Returns (onEthSendRawTransaction (Wallet_Client w) (h ++ pre)
                              (hexutil_Encode raw)),
                   map Asked pre ++ signing
                     ++ [Asked (EthSendRawTransaction (hexutil_Encode raw))])
              end
          end
      | _, _ => (Panics, map Asked pre)
      end
  end.

(** *** Utilities *)

(** [func Encrypt(publicKey string, message []byte) ([]byte, error)], with
    the state of [rand.Reader] as an argument. *)
Definition Encrypt (rnd : Rand) (publicKey : string) (message : bytes)
    : outcome (bytes * option error) :=
  let pub := FromHex publicKey in
  match UnmarshalPubkey pub with
  | (_, Some err) => Returns ([], Some err)
  | (None, None) => Panics
  | (Some pubKey, None) =>
      match ecies_Encrypt rnd pubKey message with
      | (_, Some err) => Returns ([], Some err)
      | (result, None) => Returns (result, None)
      end
  end.

(** *** contract.go *)

(** [func (c *Contract) EncodeDataHex(methodName string, args ...interface{}) (hex string, err error)] *)
Definition EncodeDataHex (c : Contract) (methodName : string) (args : list any)
    : string * option error :=
  match EncodeData c methodName args with
  | (_, Some err) => ("", Some err)
  | (by_, None) => (hexutil_Encode by_, None)
  end.

(** [func (c *Contract) DecodeDataHex(dataHex string)] *)
Definition DecodeDataHex (c : Contract) (dataHex : string)
    : outcome (string * option (gmap string any) * option error) :=
  DecodeData c (FromHex dataHex).

(** [func (c *Contract) DecodeEvent(topics []common.Hash, data []byte)],
    returning [eventName], [values] and [err].  [values] is [None] while the
    map is still nil. *)
Definition DecodeEvent (c : Contract) (topics : list bytes) (data : bytes)
    : outcome (string * option (gmap string any) * option error) :=
  match topics with
  | [] => Returns ("", None, Some ErrNoTopicsFound)
  | topic0 :: rest =>
      match abi_EventByID (Contract_ABI c) topic0 with
      | (_, Some err) => Returns ("", None, Some err)
      | (None, None) => Panics
      | (Some event, None) =>
          let eventName := abiEvent.Name event in
          let indexed :=
            Arguments_of
              (List.filter Argument_Indexed (Arguments_items (abiEvent.Inputs event))) in
          let indexTopics := rest in
          match ParseTopicsIntoMap ∅ indexed indexTopics with
          | (values, Some err) => Returns (eventName, Some values, Some err)
          | (values, None) =>
              match Arguments_UnpackIntoMap (abiEvent.Inputs event) values data with
              | (values, err) => Returns (eventName, Some values, err)
              end
          end
      end
  end.

(** [func (c *Contract) DecodeEventHex(topicsHex []string, dataHex string)] *)
Definition DecodeEventHex (c : Contract) (topicsHex : list string) (dataHex : string)
    : outcome (string * option (gmap string any) * option error) :=
  DecodeEvent c (map HexToHash topicsHex) (FromHex dataHex).

(** *** wallet.go: [NewWallet] *)

(** An element of [options ...any], by the cases of the type switch. *)
Inductive WalletOption : Type :=
  | OptClientOption (f : ClientOption)   (* func(rpc *ethrpc.EthRPC) *)
  | OptClient (client : option EthRPC)   (* *ethrpc.EthRPC *)
  | OptVersion (version : string)        (* string *)
  | OptChainID (chainID : option Z)      (* *big.Int *)
  | OptWallet (w : option Wallet)        (* *Wallet *)
  | OptOther.                            (* a value of any other type *)

(** The four variables the loop over the options assigns. *)
Record WalletConfig : Type := mkWalletConfig {
  cfg_clientOptions : list ClientOption;
  cfg_client : option EthRPC;
  cfg_version : string;
  cfg_chainID : option Z
}.

(** One turn of the loop: the type switch. *)
Definition applyOption (cfg : WalletConfig) (opt : WalletOption)
    : outcome WalletConfig :=
  match opt with
  | OptClientOption f =>
      Returns (mkWalletConfig (cfg_clientOptions cfg ++ [f]) (cfg_client cfg)
                 (cfg_version cfg) (cfg_chainID cfg))
  | OptClient client =>
      Returns (mkWalletConfig (cfg_clientOptions cfg) client
                 (cfg_version cfg) (cfg_chainID cfg))
  | OptVersion version =>
      Returns (mkWalletConfig (cfg_clientOptions cfg) (cfg_client cfg)
                 version (cfg_chainID cfg))
  | OptChainID chainID =>
      Returns (mkWalletConfig (cfg_clientOptions cfg) (cfg_client cfg)
                 (Int_String chainID) chainID)
  | OptWallet None => Panics
  | OptWallet (Some w) =>
      Returns (mkWalletConfig (cfg_clientOptions cfg) (Some (Wallet_Client w))
                 (Int_String (ChainID w)) (ChainID w))
  | OptOther => Returns cfg
  end.

(** [for _, opt := range options { switch ... }] *)
Fixpoint applyOptions (cfg : WalletConfig) (options : list WalletOption)
    : outcome WalletConfig :=
  match options with
  | [] => Returns cfg
  | opt :: rest =>
      match applyOption cfg opt with
      | Panics => Panics
      | Returns cfg' => applyOptions cfg' rest
      end
  end.

(** A request [NewWallet] makes: [client.NetVersion()]. *)
Inductive Request : Type :=
  | NetVersionRequest (client : EthRPC).

(** [func NewWallet(prvHex, rpc string, options ...any)], returning
    [*Wallet] and [error], together with the requests made. *)
Definition NewWallet (prvHex rpc : string) (options : list WalletOption)
    : outcome (option Wallet * option error) * list Request :=
  match applyOptions (mkWalletConfig [] None "" None) options with
  | Panics => (Panics, [])
  | Returns cfg =>
      match NewSigner prvHex with
      | Panics => (Panics, [])
      | Returns (_, Some err) => (Returns (None, Some err), [])
      | Returns (None, None) => (Panics, [])
      | Returns (Some signer, None) =>
          let client := match cfg_client cfg with
                        | None => ethrpc_New rpc (cfg_clientOptions cfg)
                        | Some client => client
                        end in
          let finish (version : string) (requests : list Request) :=
            match cfg_chainID cfg with
            | Some chainID =>
                (Returns (Some (mkWallet (Signer_Address signer) (Some chainID)
                                  signer client), None), requests)
            | None =>
                match Int_SetString10 version with
                | None => (Returns (None, Some (ErrWrongChainID version)), requests)
                | Some chainID =>
                    (Returns (Some (mkWallet (Signer_Address signer) (Some chainID)
                                      signer client), None), requests)
                end
            end in
          if String.eqb (cfg_version cfg) "" then
            match NetVersion client with
            | (_, Some err) => (Returns (None, Some err), [NetVersionRequest client])
            | (version, None) => finish version [NetVersionRequest client]
            end
          else finish (cfg_version cfg) []
      end
  end.

End PackageRest.

(** Options of [NewWallet] that say nothing about the network: a client
    option, a client, or a value the type switch ignores. *)
Definition leaves_chain `{Libraries} (opt : WalletOption) : bool :=
  match opt with
  | OptClientOption _ | OptClient _ | OptOther => true
  | OptVersion _ | OptChainID _ | OptWallet _ => false
  end.

(** Options that say nothing about the network and do not replace the
    client either. *)
Definition leaves_client `{Libraries} (opt : WalletOption) : bool :=
  match opt with
  | OptClientOption _ | OptOther => true
  | OptClient _ | OptVersion _ | OptChainID _ | OptWallet _ => false
  end.

(** ** The test double, continued *)

Module MockRest.

(** [common.FromHex]: an optional 0x, a leading zero for an odd number of
    digits, and no bytes for what is not hexadecimal. *)
Definition fromHex (s : string) : bytes :=
  let digits :=
    match s with
    | String "0" (String x rest) =>
        if byte_eqb x 120 || byte_eqb x 88 then list_ascii_of_string rest
        else list_ascii_of_string s
    | _ => list_ascii_of_string s
    end in
  let digits := if Nat.odd (length digits) then "0"%char :: digits else digits in
  default [] (Mock.bytes_of_hex digits).

Definition toHash (b : bytes) : bytes :=
  let b := drop (length b - 32) b in
  replicate (32 - length b) (byte_of 0) ++ b.

(** [big.Int] in base ten, on the decimal numbers of the standard library. *)
Definition intString (z : option Z) : string :=
  match z with
  | None => "<nil>"
  | Some z => NilZero.string_of_int (Z.to_int z)
  end.

Definition setString10 (s : string) : option Z :=
  match s with
  | String "+" digits => option_map Z.of_uint (NilZero.uint_of_string digits)
  | String "-" digits =>
      option_map (fun d => - Z.of_uint d) (NilZero.uint_of_string digits)
  | _ => option_map Z.of_uint (NilZero.uint_of_string s)
  end.

(** An argument is a name; the indexed ones are those named "topic_...". *)
Definition indexed (name : string) : bool := String.prefix "topic_" name.

Definition transferEvent : abiEvent.Event (list string) :=
  abiEvent.mkEvent "Transfer" (Mock.digest (bytes_of_string "Transfer"))
                   ["topic_from"; "topic_to"; "value"].

Definition eventByID (ms : list (abi.Method (list string))) (topic : bytes)
    : option (abiEvent.Event (list string)) * option error :=
  if bool_decide (topic = abiEvent.ID transferEvent) then (Some transferEvent, None)
  else (None, Some (ErrExternal "no event with id")).

Definition parseTopics (v : gmap string any) (names : list string)
    (topics : list bytes) : gmap string any * option error :=
  if bool_decide (length names = length topics) then
    (fold_right (fun nt acc => <[fst nt := AnyBytes (snd nt)]> acc) v (zip names topics),
     None)
  else (v, Some (ErrExternal "topic/field count mismatch")).

(** The test node reports its gas price as its network id. *)
Definition netVersion (c : EthRPC) : string * option error :=
  match onEthGasPrice c [] with
  | (price, err) => (intString (Some price), err)
  end.

Definition unmarshalPubkey (b : bytes) : option N * option error :=
  match b with
  | tag :: first :: _ =>
      if (length b =? 65)%nat && byte_eqb tag 4 then (Some (N_of_ascii first), None)
      else (None, Some (ErrExternal "invalid secp256k1 public key"))
  | _ => (None, Some (ErrExternal "invalid secp256k1 public key"))
  end.

Definition encrypt (rnd : N) (p : N) (m : bytes) : bytes * option error :=
  (byte_of rnd :: byte_of p :: m, None).

Definition decrypt (k : N) (ct : bytes) : bytes * option error :=
  match ct with
  | _ :: b :: m =>
      if byte_eqb b ((3 * k + 1) mod 256) then (m, None)
      else ([], Some (ErrExternal "ecies: invalid message"))
  | _ => ([], Some (ErrExternal "ecies: invalid message"))
  end.

Definition argumentsItems : Arguments (GoEthereum := Mock.lib) -> list string :=
  fun names => names.
Definition argumentsOf : list string -> Arguments (GoEthereum := Mock.lib) :=
  fun names => names.

#[export] Instance libraries : Libraries (H := Mock.lib) := {|
  Int_String := intString;
  Int_SetString10 := setString10;
  FromHex := fromHex;
  HexToHash := fun s => toHash (fromHex s);
  Argument := string;
  Argument_Indexed := indexed;
  Arguments_items := argumentsItems;
  Arguments_of := argumentsOf;
  abi_EventByID := eventByID;
  ParseTopicsIntoMap := parseTopics;
  SignLegacy := fun k chainID tx =>
    match legacy.GasPrice tx with
    | None => (None, Some (ErrExternal "gas price is nil"))
    | Some _ =>
        (Some ({| types.Nonce := legacy.Nonce tx;
                  types.GasTipCap := legacy.GasPrice tx;
                  types.GasFeeCap := legacy.GasPrice tx;
                  types.Gas := legacy.Gas tx;
                  types.To := legacy.To tx;
                  types.Value := legacy.Value tx;
                  types.Data := legacy.Data tx |},
               fst (Mock.sign (Mock.digest (legacy.Data tx)) k)), None)
    end;
  ClientOption := Z;
  ethrpc_New := fun rpc fs => Mock.node 0 21000 (foldr Z.add (Z.of_nat (String.length rpc)) fs);
  NetVersion := netVersion;
  UnmarshalPubkey := unmarshalPubkey;
  Rand := N;
  ecies_Encrypt := encrypt;
  ecies_Decrypt := decrypt
|}.

(** The library of [Mock] with another transaction signer. *)
Definition withSigner
    (signNewTx : N -> option Z -> types.DynamicFeeTx ->
                 option (types.DynamicFeeTx * bytes) * option error)
    : GoEthereum :=
  {| PrivateKey := N;
     PublicKey := N;
     PublicKeyOf := PublicKeyOf (GoEthereum := Mock.lib);
     Address_String := Address_String (GoEthereum := Mock.lib);
     BytesToAddress := BytesToAddress (GoEthereum := Mock.lib);
     hexutil_Encode := hexutil_Encode (GoEthereum := Mock.lib);
     hexutil_Decode := hexutil_Decode (GoEthereum := Mock.lib);
     Keccak256 := Keccak256 (GoEthereum := Mock.lib);
     HexToECDSA := HexToECDSA (GoEthereum := Mock.lib);
     FromECDSAPub := FromECDSAPub (GoEthereum := Mock.lib);
     PubkeyToAddress := PubkeyToAddress (GoEthereum := Mock.lib);
     TextHash := TextHash (GoEthereum := Mock.lib);
     crypto_Sign := crypto_Sign (GoEthereum := Mock.lib);
     crypto_Ecrecover := crypto_Ecrecover (GoEthereum := Mock.lib);
     Transaction := types.DynamicFeeTx * bytes;
     SignNewTx := signNewTx;
     MarshalBinary := MarshalBinary (GoEthereum := Mock.lib);
     TypedData := Mock.typedData;
     PrimaryType := Mock.primaryType;
     Domain_Map := Mock.domain;
     Message := Mock.message;
     HashStruct := Mock.hashStruct;
     ABI := list (abi.Method (list string));
     Arguments := list string;
     abi_JSON := abi_JSON (GoEthereum := Mock.lib);
     abi_Methods := fun ms => ms;
     abi_Pack := Mock.pack;
     abi_MethodById := Mock.methodById;
     abi_Unpack := Mock.unpack;
     abi_UnpackIntoInterface := abi_UnpackIntoInterface (GoEthereum := Mock.lib);
     Arguments_UnpackIntoMap := Mock.unpackIntoMap |}.

(** A signer that hands back neither a transaction nor an error. *)
Definition silentSigner : GoEthereum := withSigner (fun _ _ _ => (None, None)).

(** The wallet of key 1 over the library with the silent signer. *)
Definition silentWallet (client : EthRPC) : Wallet (H := silentSigner) :=
  mkWallet (H := silentSigner) (Signer_Address Mock.signer) (Some 1)
           (mkSigner (H := silentSigner) (Signer_Address Mock.signer) 1%N) client.

End MockRest.

(** * Properties *)

(** ** The fee helpers *)

(** C3. With tip cap, fee cap and gas limit all set, [GetNewFee] returns
    exactly (2 × GasTipCap + GasFeeCap) × GasLimit and a nil error; when one
    of the three is unset it returns a nil value and the error
    "basic parameters not set". *)
Theorem GetNewFee_spec (t : TxOpts) :
  (forall tip cap lim : Z,
      GasTipCap t = Some tip -> GasFeeCap t = Some cap -> GasLimit t = Some lim ->
      GetNewFee t = (Some ((2 * tip + cap) * lim), None))
  /\ (GasTipCap t = None \/ GasFeeCap t = None \/ GasLimit t = None ->
      GetNewFee t = (None, Some ErrBaseParamsNotSet)).
Proof.
  unfold GetNewFee. split.
  - intros tip cap lim -> -> ->. do 2 f_equal. ring.
  - intros [Hnil | [Hnil | Hnil]]; rewrite Hnil;
      destruct (GasTipCap t), (GasFeeCap t), (GasLimit t); reflexivity.
Qed.

Lemma GetNewFee_spec_witness :
  GetNewFee (mkTxOpts None (Some 21000) None (Some 2000000000) (Some 30000000000))
    = (Some 714000000000000, None)
  /\ GetNewFee (mkTxOpts None (Some 21000) None None (Some 30000000000))
    = (None, Some ErrBaseParamsNotSet).
Proof.
  split.
  - exact (proj1 (GetNewFee_spec
                    (mkTxOpts None (Some 21000) None (Some 2000000000) (Some 30000000000)))
                 2000000000 30000000000 21000 eq_refl eq_refl eq_refl).
  - exact (proj2 (GetNewFee_spec (mkTxOpts None (Some 21000) None None (Some 30000000000)))
                 (or_introl eq_refl)).
Defined.

(** C4. With gas price and gas limit both set, [GetOldFee] returns exactly
    GasPrice × GasLimit and a nil error; when one of the two is unset it
    returns the error "basic parameters not set"; a gas price of 20e9 and a
    gas limit of 21000 give 420,000,000,000,000. *)
Theorem GetOldFee_spec (t : TxOpts) :
  (forall price lim : Z,
      GasPrice t = Some price -> GasLimit t = Some lim ->
      GetOldFee t = (Some (price * lim), None))
  /\ (GasPrice t = None \/ GasLimit t = None ->
      GetOldFee t = (None, Some ErrBaseParamsNotSet))
  /\ (GasPrice t = Some 20000000000 -> GasLimit t = Some 21000 ->
      GetOldFee t = (Some 420000000000000, None)).
Proof.
  unfold GetOldFee. repeat split.
  - intros price lim -> ->. reflexivity.
  - intros [Hnil | Hnil]; rewrite Hnil; destruct (GasPrice t), (GasLimit t); reflexivity.
  - intros -> ->. reflexivity.
Qed.

Lemma GetOldFee_spec_witness :
  GetOldFee (mkTxOpts (Some 0) (Some 21000) (Some 20000000000) None None)
    = (Some 420000000000000, None)
  /\ GetOldFee (mkTxOpts (Some 0) None (Some 20000000000) None None)
    = (None, Some ErrBaseParamsNotSet).
Proof.
  split.
  - exact (proj2 (proj2 (GetOldFee_spec
                    (mkTxOpts (Some 0) (Some 21000) (Some 20000000000) None None)))
                 eq_refl eq_refl).
  - exact (proj1 (proj2 (GetOldFee_spec
                    (mkTxOpts (Some 0) None (Some 20000000000) None None)))
                 (or_intror eq_refl)).
Defined.

(** ** Resolution of the transaction options *)

(** Unfolds the sequencing of a computation and splits on every answer of
    a collaborator that the result depends on. *)
Ltac run_steps :=
  unfold outcome_of, events_of, InitTxOpts, and_then, GetPendingNonce, call,
    deref, panic, mbind, M_bind, bind, mret, M_ret, ret in *;
  cbn in *;
  repeat match goal with
         | |- context [match ?x with _ => _ end] =>
             lazymatch x with
             | context [match _ with _ => _ end] => fail
             | _ => destruct x eqn:?
             end; cbn in *
         end.

(** Finds the events before the request for the gas price and the answer
    to it among the hypotheses. *)
Ltac fetched_price :=
  repeat match goal with
         | Heq : onEthGasPrice _ _ = _ |- _ =>
             progress (rewrite <- ?app_assoc, ?app_nil_r in Heq; cbn in Heq)
         end;
  first [ exists []; split; [reflexivity | rewrite app_nil_r; eassumption]
        | eexists [_]; split; [reflexivity | eassumption]
        | eexists [_; _]; split; [reflexivity | eassumption] ].

Section WalletProperties.

Context `{GoEthereum}.

(** A nil [opts] is resolved like an empty record. *)
Lemma InitTxOpts_nil (w : Wallet) (to : bytes) (amount : option Z) (data : bytes) :
  InitTxOpts w to amount data None = InitTxOpts w to amount data (Some emptyTxOpts).
Proof. reflexivity. Qed.

(** C1, amended.  Whatever the node answers and whether or not the call
    fails, [InitTxOpts] returns (it does not panic) and leaves a caller-set
    Nonce, GasLimit and GasPrice as they were; GasTipCap and GasFeeCap keep
    their values when both were set on entry.  When one of the two was unset
    and the call succeeds, both are the resolved GasPrice, whatever the
    caller had put in the other. *)
Theorem InitTxOpts_frame (w : Wallet) (to : bytes) (amount : option Z)
    (data : bytes) (opts : TxOpts) (h : list Event) :
  exists (o : TxOpts) (err : option error),
    outcome_of (InitTxOpts w to amount data (Some opts)) h = Returns (o, err)
    /\ (forall v, Nonce opts = Some v -> Nonce o = Some v)
    /\ (forall v, GasLimit opts = Some v -> GasLimit o = Some v)
    /\ (forall v, GasPrice opts = Some v -> GasPrice o = Some v)
    /\ (forall tip cap, GasTipCap opts = Some tip -> GasFeeCap opts = Some cap ->
          GasTipCap o = Some tip /\ GasFeeCap o = Some cap)
    /\ (GasTipCap opts = None \/ GasFeeCap opts = None -> err = None ->
          GasTipCap o = GasPrice o /\ GasFeeCap o = GasPrice o).
Proof.
  destruct opts as [[n|] [gl|] [gp|] [tip|] [cap|]]; run_steps;
    (eexists _, _; split; [reflexivity | ]; cbn;
     do 3 (split; [intros v Hv; congruence | ]);
     (split; [intros t c Ht Hc; split; congruence | ]);
     intros [Hnil | Hnil] Herr; split; congruence).
Qed.

(** C2, amended.  When [InitTxOpts] succeeds, GasPrice is set to the resolved
    gas price: the caller's GasPrice when it was set, otherwise the price the
    node answered to the last request of the call, [EthGasPrice].  When
    GasTipCap or GasFeeCap (or both) was unset on entry, both are set to
    that price; when both were set, both are left as they were. *)
Theorem InitTxOpts_caps_default (w : Wallet) (to : bytes) (amount : option Z)
    (data : bytes) (opts : TxOpts) (h : list Event) (o : TxOpts) :
  outcome_of (InitTxOpts w to amount data (Some opts)) h = Returns (o, None) ->
  exists price : Z,
    GasPrice o = Some price
    /\ (forall p, GasPrice opts = Some p -> price = p)
    /\ (GasPrice opts = None ->
        exists pre,
          events_of (InitTxOpts w to amount data (Some opts)) h = pre ++ [EthGasPrice]
          /\ onEthGasPrice (Wallet_Client w) (h ++ pre) = (price, None))
    /\ (GasTipCap opts = None \/ GasFeeCap opts = None ->
        GasTipCap o = Some price /\ GasFeeCap o = Some price)
    /\ (forall tip cap, GasTipCap opts = Some tip -> GasFeeCap opts = Some cap ->
        GasTipCap o = Some tip /\ GasFeeCap o = Some cap).
Proof.
  destruct opts as [[n|] [gl|] [gp|] [tip|] [cap|]]; run_steps;
    intros Hret; try discriminate Hret;
    injection Hret as <-; cbn;
    (eexists; split; [reflexivity | ]);
    (split; [intros p Hp; congruence | ]);
    (split; [intros Hnil; try discriminate Hnil; fetched_price | ]);
    (split; [intros [Hnil | Hnil]; try discriminate Hnil; split; reflexivity | ]);
    (intros t c Ht Hc; try discriminate Ht; try discriminate Hc; split; congruence).
Qed.

End WalletProperties.

(** C1, as stated, fails: a caller sets GasTipCap to 5 and leaves GasFeeCap
    unset; after a successful resolution GasTipCap is the gas price, 100. *)
Lemma InitTxOpts_lone_tip_cap_replaced :
  exists o : TxOpts,
    outcome_of
      (InitTxOpts (Mock.wallet (Mock.node 7 21000 100)) Mock.recipient None []
         (Some (mkTxOpts (Some 1) (Some 21000) (Some 100) (Some 5) None))) []
      = Returns (o, None)
    /\ GasTipCap o = Some 100
    /\ GasTipCap o <> Some 5.
Proof. eexists. split; [reflexivity | split; [reflexivity | discriminate]]. Qed.

Lemma InitTxOpts_frame_witness :
  exists (o : TxOpts) (err : option error),
    outcome_of
      (InitTxOpts (Mock.wallet Mock.deadNode) Mock.recipient None []
         (Some (mkTxOpts None (Some 21000) None None None))) []
      = Returns (o, err)
    /\ GasLimit o = Some 21000.
Proof.
  destruct (InitTxOpts_frame (Mock.wallet Mock.deadNode) Mock.recipient None []
              (mkTxOpts None (Some 21000) None None None) [])
    as (o & err & Hret & _ & Hlimit & _).
  exists o, err. split; [exact Hret | exact (Hlimit 21000 eq_refl)].
Defined.

(** C2, as stated, fails in its last part: the defaulting is applied although
    GasFeeCap was set to 30; only GasTipCap was unset. *)
Lemma InitTxOpts_defaults_with_fee_cap_set :
  exists o : TxOpts,
    outcome_of
      (InitTxOpts (Mock.wallet (Mock.node 7 21000 20)) Mock.recipient None []
         (Some (mkTxOpts None None None None (Some 30)))) []
      = Returns (o, None)
    /\ GasTipCap o = Some 20
    /\ GasFeeCap o = Some 20
    /\ GasFeeCap o <> Some 30.
Proof.
  eexists. split; [reflexivity | ].
  split; [reflexivity | split; [reflexivity | discriminate]].
Qed.

Lemma InitTxOpts_caps_default_witness :
  outcome_of
    (InitTxOpts (Mock.wallet (Mock.node 7 21000 20)) Mock.recipient None []
       (Some (mkTxOpts None None None None (Some 30)))) []
    = Returns (mkTxOpts (Some 7) (Some 21000) (Some 20) (Some 20) (Some 20), None)
  /\ exists price : Z,
      GasPrice (mkTxOpts (Some 7) (Some 21000) (Some 20) (Some 20) (Some 20)) = Some price
      /\ GasTipCap (mkTxOpts (Some 7) (Some 21000) (Some 20) (Some 20) (Some 20)) = Some price.
Proof.
  split; [reflexivity | ].
  destruct (InitTxOpts_caps_default (Mock.wallet (Mock.node 7 21000 20)) Mock.recipient
              None [] (mkTxOpts None None None None (Some 30)) []
              (mkTxOpts (Some 7) (Some 21000) (Some 20) (Some 20) (Some 20)) eq_refl)
    as (price & Hprice & _ & _ & Hcaps & _).
  exists price. split; [exact Hprice | exact (proj1 (Hcaps (or_introl eq_refl)))].
Defined.

(** ** Recovery of the signer *)

Section RecoverProperties.

Context `{GoEthereum}.

Lemma byte_eqb_false (v : ascii) (n : N) : N_of_ascii v <> n -> byte_eqb v n = false.
Proof. intros Hne. unfold byte_eqb. apply N.eqb_neq. exact Hne. Qed.

Lemma Ecrecover_bad_length (hash sig : bytes) :
  length sig <> 65%nat ->
  Ecrecover hash sig = Returns ([], zeroAddress, Some (ErrInvalidSigLength (length sig))).
Proof.
  intros Hlen. unfold Ecrecover. apply Nat.eqb_neq in Hlen. rewrite Hlen. reflexivity.
Qed.

Lemma Ecrecover_bad_type (hash sig : bytes) (v : ascii) :
  length sig = 65%nat -> sig !! 64%nat = Some v ->
  N_of_ascii v <> 0%N -> N_of_ascii v <> 1%N ->
  N_of_ascii v <> 27%N -> N_of_ascii v <> 28%N ->
  Ecrecover hash sig = Returns ([], zeroAddress, Some ErrInvalidSigType).
Proof.
  intros Hlen Hv H0 H1 H27 H28. unfold Ecrecover.
  apply Nat.eqb_eq in Hlen. rewrite Hlen, Hv. cbn [negb].
  rewrite !byte_eqb_false by assumption. reflexivity.
Qed.

Lemma Ecrecover_normalizes (hash sig : bytes) (v : ascii) :
  length sig = 65%nat -> sig !! 64%nat = Some v ->
  N_of_ascii v = 27%N \/ N_of_ascii v = 28%N ->
  Ecrecover hash sig
  = Ecrecover_recovered hash (<[64%nat := byte_of (N_of_ascii v - 27)]> sig).
Proof.
  intros Hlen Hv Hrec. unfold Ecrecover.
  apply Nat.eqb_eq in Hlen. rewrite Hlen, Hv. cbn [negb].
  unfold byte_eqb, byte_geb, byte_sub.
  destruct Hrec as [-> | ->]; reflexivity.
Qed.

Lemma Ecrecover_raw_id (hash sig : bytes) (v : ascii) :
  length sig = 65%nat -> sig !! 64%nat = Some v ->
  N_of_ascii v = 0%N \/ N_of_ascii v = 1%N ->
  Ecrecover hash sig = Ecrecover_recovered hash sig.
Proof.
  intros Hlen Hv Hrec. unfold Ecrecover.
  apply Nat.eqb_eq in Hlen. rewrite Hlen, Hv. cbn [negb].
  unfold byte_eqb, byte_geb.
  destruct Hrec as [-> | ->]; reflexivity.
Qed.

(** C5.  [Ecrecover] returns an error, a nil public key and the zero address
    (so it does not panic) when the signature is not 65 bytes long or when
    its last byte is none of 0, 1, 27, 28.  A last byte of 27 or 28 is
    replaced by 0 or 1 in the signature handed to the recovery primitive; a
    last byte of 0 or 1 is handed over as it is. *)
Theorem Ecrecover_validates (hash sig : bytes) :
  (length sig <> 65%nat ->
     Ecrecover hash sig
     = Returns ([], zeroAddress, Some (ErrInvalidSigLength (length sig))))
  /\ (forall v : ascii,
        length sig = 65%nat -> sig !! 64%nat = Some v ->
        N_of_ascii v <> 0%N -> N_of_ascii v <> 1%N ->
        N_of_ascii v <> 27%N -> N_of_ascii v <> 28%N ->
        Ecrecover hash sig = Returns ([], zeroAddress, Some ErrInvalidSigType))
  /\ (forall v : ascii,
        length sig = 65%nat -> sig !! 64%nat = Some v ->
        N_of_ascii v = 27%N \/ N_of_ascii v = 28%N ->
        Ecrecover hash sig
        = Ecrecover_recovered hash (<[64%nat := byte_of (N_of_ascii v - 27)]> sig))
  /\ (forall v : ascii,
        length sig = 65%nat -> sig !! 64%nat = Some v ->
        N_of_ascii v = 0%N \/ N_of_ascii v = 1%N ->
        Ecrecover hash sig = Ecrecover_recovered hash sig).
Proof.
  split; [apply Ecrecover_bad_length | ].
  split; [intros v; apply Ecrecover_bad_type | ].
  split; [intros v; apply Ecrecover_normalizes | intros v; apply Ecrecover_raw_id].
Qed.

(** [sig[64] += 27] on a raw recovery id, then the normalisation of
    [Ecrecover], gives the raw id back. *)
Lemma add_27_normalized (v : ascii) :
  N_of_ascii v = 0%N \/ N_of_ascii v = 1%N ->
  (N_of_ascii (byte_add v 27) = 27%N \/ N_of_ascii (byte_add v 27) = 28%N)
  /\ byte_of (N_of_ascii (byte_add v 27) - 27) = v.
Proof.
  intros Hv. unfold byte_add.
  assert (Hback : forall n, N_of_ascii v = n -> v = ascii_of_N n)
    by (intros n <-; symmetry; apply ascii_N_embedding).
  destruct Hv as [Hv | Hv]; rewrite Hv; rewrite (Hback _ Hv); split;
    first [reflexivity | left; reflexivity | right; reflexivity].
Qed.

(** C6.  Under the library's laws, for a signer made by [NewSigner] and every
    message, [SignMsg] returns a signature that ends in 27 or 28, and
    [Ecrecover] on the personal-message hash and that signature returns the
    signer's public key and the signer's address, with a nil error. *)
Theorem SignMsg_Ecrecover (laws : CryptoLaws) (prvHex : string) (s : Signer)
    (msg : bytes) :
  NewSigner prvHex = Returns (Some s, None) ->
  exists (sig : bytes) (v : ascii),
    SignMsg s msg = Returns (sig, None)
    /\ sig !! 64%nat = Some v
    /\ (N_of_ascii v = 27%N \/ N_of_ascii v = 28%N)
    /\ Ecrecover (TextHash msg) sig
       = Returns (GetPublicKey s, Signer_Address s, None).
Proof.
  intros Hnew.
  assert (Haddr : Signer_Address s = PubkeyToAddress (PublicKeyOf (key s))).
  { unfold NewSigner in Hnew.
    destruct (HexToECDSA prvHex) as [[k | ] [e | ]]; try discriminate Hnew.
    injection Hnew as <-. reflexivity. }
  destruct (Sign_Ecrecover laws (TextHash msg) (key s) (TextHash_length laws msg))
    as (sig0 & v0 & Hsign & Hlen & Hv0 & Hid & Hrec).
  destruct (add_27_normalized v0 Hid) as [Hv Hback].
  exists (<[64%nat := byte_add v0 27]> sig0), (byte_add v0 27).
  assert (Hlook : <[64%nat := byte_add v0 27]> sig0 !! 64%nat = Some (byte_add v0 27)).
  { apply list_lookup_insert_eq. rewrite Hlen. lia. }
  split; [ | split; [exact Hlook | split; [exact Hv | ]]].
  - unfold SignMsg, add_at. rewrite Hsign, Hv0. reflexivity.
  - rewrite (Ecrecover_normalizes _ _ (byte_add v0 27));
      [ | rewrite length_insert; exact Hlen | exact Hlook | exact Hv ].
    rewrite list_insert_insert_eq, Hback, (list_insert_id _ _ _ Hv0).
    unfold Ecrecover_recovered, slice_from. rewrite Hrec.
    rewrite (FromECDSAPub_length laws). cbn [Nat.leb].
    rewrite (Keccak256_length laws). cbn [Nat.leb].
    rewrite Haddr, (PubkeyToAddress_Keccak256 laws). reflexivity.
Qed.

End RecoverProperties.

Lemma Ecrecover_validates_witness :
  Ecrecover (H := Mock.lib) (Mock.digest []) (replicate 64 (byte_of 1))
  = Returns ([], zeroAddress, Some (ErrInvalidSigLength 64))
  /\ Ecrecover (H := Mock.lib) (Mock.digest []) (replicate 64 (byte_of 1) ++ [byte_of 29])
     = Returns ([], zeroAddress, Some ErrInvalidSigType)
  /\ Ecrecover (H := Mock.lib) (Mock.digest []) (replicate 64 (byte_of 1) ++ [byte_of 28])
     = Ecrecover_recovered (H := Mock.lib) (Mock.digest []) (replicate 64 (byte_of 1) ++ [byte_of 1]).
Proof.
  split; [ | split ].
  - apply (proj1 (Ecrecover_validates (H := Mock.lib) (Mock.digest []) (replicate 64 (byte_of 1)))).
    cbn. lia.
  - apply (proj1 (proj2 (Ecrecover_validates (H := Mock.lib) (Mock.digest [])
                           (replicate 64 (byte_of 1) ++ [byte_of 29]))) (byte_of 29));
      [reflexivity | reflexivity | | | | ]; vm_compute; discriminate.
  - apply (proj1 (proj2 (proj2 (Ecrecover_validates (H := Mock.lib) (Mock.digest [])
                                  (replicate 64 (byte_of 1) ++ [byte_of 28])))) (byte_of 28));
      [reflexivity | reflexivity | right; reflexivity].
Defined.

(** The test double obeys the laws of [crypto]. *)
Lemma byte_of_small (n : N) : (n < 256)%N -> N_of_ascii (byte_of n) = n.
Proof.
  intros Hn. unfold byte_of. rewrite N.mod_small by exact Hn.
  apply N_ascii_embedding. exact Hn.
Qed.

Lemma Mock_sign_recover (hash : bytes) (p : N) :
  length hash = 32%nat ->
  exists (sig : bytes) (v : ascii),
    Mock.sign hash p = (sig, None)
    /\ length sig = 65%nat
    /\ sig !! 64%nat = Some v
    /\ (N_of_ascii v = 0%N \/ N_of_ascii v = 1%N)
    /\ Mock.recover hash sig = (Mock.pubBytes p, None).
Proof.
  intros Hlen.
  set (body := map (fun i => byte_of (p / (N.of_nat i + 1) + 3 * N.of_nat i)) (seq 0 64)).
  assert (Hbody : length body = 64%nat) by reflexivity.
  assert (Hpub : Mock.pubBytes p = byte_of 4 :: body) by reflexivity.
  assert (Hid : N_of_ascii (byte_of (p mod 2)) = (p mod 2)%N).
  { apply byte_of_small. pose proof (N.mod_upper_bound p 2). lia. }
  assert (Hlook : (body ++ [byte_of (p mod 2)]) !! 64%nat = Some (byte_of (p mod 2))).
  { rewrite lookup_app_r by (rewrite Hbody; lia). rewrite Hbody. reflexivity. }
  exists (body ++ [byte_of (p mod 2)]), (byte_of (p mod 2)).
  split; [ | split; [ | split; [exact Hlook | split]]].
  - unfold Mock.sign. apply Nat.eqb_eq in Hlen. rewrite Hlen, Hpub. reflexivity.
  - rewrite length_app, Hbody. reflexivity.
  - rewrite Hid. pose proof (N.mod_upper_bound p 2). lia.
  - unfold Mock.recover. rewrite Hlook, length_app, Hbody, Hid.
    replace (p mod 2 <? 4)%N with true
      by (symmetry; apply N.ltb_lt; pose proof (N.mod_upper_bound p 2); lia).
    cbn [length Nat.add Nat.eqb andb].
    rewrite (take_app_length' body _ 64) by (symmetry; exact Hbody).
    rewrite Hpub. reflexivity.
Qed.

Lemma Mock_cryptoLaws : CryptoLaws (H := Mock.lib).
Proof.
  split.
  - intros msg. reflexivity.
  - intros b. reflexivity.
  - intros p. reflexivity.
  - intros p. reflexivity.
  - intros hash k Hlen. exact (Mock_sign_recover hash (3 * k + 1) Hlen).
Qed.

Lemma SignMsg_Ecrecover_witness :
  exists (sig : bytes) (v : ascii),
    SignMsg Mock.signer (bytes_of_string "hello") = Returns (sig, None)
    /\ sig !! 64%nat = Some v
    /\ (N_of_ascii v = 27%N \/ N_of_ascii v = 28%N)
    /\ Ecrecover (H := Mock.lib) (@TextHash Mock.lib (bytes_of_string "hello")) sig
       = Returns (GetPublicKey Mock.signer, Signer_Address Mock.signer, None).
Proof.
  exact (SignMsg_Ecrecover Mock_cryptoLaws "01" Mock.signer (bytes_of_string "hello")
           eq_refl).
Defined.

(** ** Typed-data hash *)

Section TypedDataProperties.

Context `{GoEthereum}.

Lemma bytes_of_string_app (s1 s2 : string) :
  bytes_of_string (s1 +:+ s2) = bytes_of_string s1 ++ bytes_of_string s2.
Proof.
  unfold bytes_of_string. induction s1 as [ | ch s1 IH].
  - reflexivity.
  - change (ch :: list_ascii_of_string (s1 +:+ s2)
            = ch :: (list_ascii_of_string s1 ++ list_ascii_of_string s2)).
    f_equal. exact IH.
Qed.

Lemma bytes_of_string_of_bytes (b : bytes) : bytes_of_string (string_of_bytes b) = b.
Proof. apply list_ascii_of_string_of_list_ascii. Qed.

(** The format of [EIP712Hash] prints the two bytes 0x19, 0x01 and then its
    two operands, byte for byte. *)
Lemma Sprintf_eip712 (a b : bytes) :
  bytes_of_string (Sprintf eip712_format [string_of_bytes a; string_of_bytes b])
  = [byte_of 25; byte_of 1] ++ a ++ b.
Proof.
  change (Sprintf eip712_format [string_of_bytes a; string_of_bytes b])
    with (String (byte_of 25) (String (byte_of 1)
            (string_of_bytes a +:+ (string_of_bytes b +:+ EmptyString)))).
  change (bytes_of_string (String (byte_of 25) (String (byte_of 1) ?s)))
    with (byte_of 25 :: byte_of 1 :: bytes_of_string s).
  rewrite !bytes_of_string_app, !bytes_of_string_of_bytes.
  cbn. rewrite app_nil_r. reflexivity.
Qed.

(** C7.  When both struct hashes succeed, [EIP712Hash] returns
    Keccak256(0x19 || 0x01 || domainSeparator || messageHash), the first
    being the struct hash of "EIP712Domain" over the domain's fields and the
    second the struct hash of the primary type over the message; when one of
    them fails, it returns that error and a nil hash. *)
Theorem EIP712Hash_spec (typedData : TypedData) :
  (forall domainSeparator messageHash : bytes,
      HashStruct typedData "EIP712Domain" (Domain_Map typedData)
        = (domainSeparator, None) ->
      HashStruct typedData (PrimaryType typedData) (Message typedData)
        = (messageHash, None) ->
      EIP712Hash typedData
      = (Keccak256 ([byte_of 25; byte_of 1] ++ domainSeparator ++ messageHash), None))
  /\ (forall (r : bytes) (e : error),
      HashStruct typedData "EIP712Domain" (Domain_Map typedData) = (r, Some e) ->
      EIP712Hash typedData = ([], Some e))
  /\ (forall (domainSeparator r : bytes) (e : error),
      HashStruct typedData "EIP712Domain" (Domain_Map typedData)
        = (domainSeparator, None) ->
      HashStruct typedData (PrimaryType typedData) (Message typedData) = (r, Some e) ->
      EIP712Hash typedData = ([], Some e)).
Proof.
  unfold EIP712Hash. repeat split.
  - intros ds mh -> ->. rewrite Sprintf_eip712. reflexivity.
  - intros r e ->. reflexivity.
  - intros ds r e -> ->. reflexivity.
Qed.

End TypedDataProperties.

Lemma EIP712Hash_spec_witness :
  EIP712Hash (H := Mock.lib) (Mock.mkTypedData "Mail" ∅ ∅ ["EIP712Domain"; "Mail"])
  = (Mock.digest
       ([byte_of 25; byte_of 1]
          ++ Mock.digest (bytes_of_string "EIP712Domain" ++ [byte_of 0])
          ++ Mock.digest (bytes_of_string "Mail" ++ [byte_of 0])), None)
  /\ EIP712Hash (H := Mock.lib) (Mock.mkTypedData "Mail" ∅ ∅ ["EIP712Domain"])
     = ([], Some (ErrExternal "type is not declared")).
Proof.
  split.
  - exact (proj1 (EIP712Hash_spec (H := Mock.lib)
                    (Mock.mkTypedData "Mail" ∅ ∅ ["EIP712Domain"; "Mail"]))
                 _ _ eq_refl eq_refl).
  - exact (proj2 (proj2 (EIP712Hash_spec (H := Mock.lib)
                           (Mock.mkTypedData "Mail" ∅ ∅ ["EIP712Domain"])))
                 _ _ _ eq_refl eq_refl).
Defined.

(** ** The contract codec *)

Section CodecProperties.

Context `{GoEthereum}.

(** C8.  [DecodeData] fails with "data is too short" on fewer than four
    bytes.  Otherwise it looks the method up by the first four bytes: it
    fails with the library's error when the lookup fails, which is the case
    when no declared method has these bytes as its ID; when a method is
    found, it is a declared one with that ID, its name is returned, and the
    parameters are what the library unpacks from the remaining bytes into an
    empty map against the method's declared inputs, with the error of that
    unpacking. *)
Theorem DecodeData_spec (laws : AbiLaws) (c : Contract) (data : bytes) :
  ((length data < 4)%nat ->
     DecodeData c data = Returns ("", None, Some ErrDataTooShort))
  /\ ((4 <= length data)%nat ->
      forall (r : option (abi.Method Arguments)) (e : error),
        abi_MethodById (Contract_ABI c) (take 4 data) = (r, Some e) ->
        DecodeData c data = Returns ("", None, Some e))
  /\ ((4 <= length data)%nat ->
      (forall m, m ∈ abi_Methods (Contract_ABI c) -> abi.ID m <> take 4 data) ->
      exists e : error, DecodeData c data = Returns ("", None, Some e))
  /\ ((4 <= length data)%nat ->
      forall m : abi.Method Arguments,
        abi_MethodById (Contract_ABI c) (take 4 data) = (Some m, None) ->
        m ∈ abi_Methods (Contract_ABI c)
        /\ abi.ID m = take 4 data
        /\ DecodeData c data
           = Returns (abi.Name m,
                      Some (fst (Arguments_UnpackIntoMap (abi.Inputs m) ∅ (drop 4 data))),
                      snd (Arguments_UnpackIntoMap (abi.Inputs m) ∅ (drop 4 data)))).
Proof.
  unfold DecodeData. split; [ | split; [ | split]].
  - intros Hlen. apply Nat.ltb_lt in Hlen. rewrite Hlen. reflexivity.
  - intros Hlen r e Hby. apply Nat.ltb_ge in Hlen. rewrite Hlen, Hby.
    destruct r; reflexivity.
  - intros Hlen Hnone. apply Nat.ltb_ge in Hlen. rewrite Hlen.
    destruct (MethodById_unknown laws (Contract_ABI c) (take 4 data)) as [e He].
    { rewrite take_take, Nat.min_id. exact Hnone. }
    exists e. rewrite He. reflexivity.
  - intros Hlen m Hby. apply Nat.ltb_ge in Hlen. rewrite Hlen, Hby.
    destruct (MethodById_found laws _ _ _ Hby) as [Hin Hid].
    rewrite take_take, Nat.min_id in Hid.
    split; [exact Hin | split; [exact Hid | ]].
    destruct (Arguments_UnpackIntoMap (abi.Inputs m) ∅ (drop 4 data)); reflexivity.
Qed.

(** C9.  An empty payload, given as a byte slice or as a string that
    hex-decodes to no bytes, makes [DecodeFromMethod] return a nil error and
    leave an empty list in [results], whatever the method name.  An error is
    returned only when [output] is a string that does not hex-decode (the
    decoder's error), when [output] is neither a string nor a byte slice, or
    when the payload is not empty and the library's unpacking of it against
    the method's outputs fails. *)
Theorem DecodeFromMethod_spec (c : Contract) (method : string) (output : any)
    (results : option (list any)) :
  (output = AnyBytes [] ->
     DecodeFromMethod c method output results = ([], None))
  /\ (forall s : string,
        output = AnyString s -> hexutil_Decode s = ([], None) ->
        DecodeFromMethod c method output results = ([], None))
  /\ (forall (r : list any) (e : error),
        DecodeFromMethod c method output results = (r, Some e) ->
        (exists s, output = AnyString s /\ snd (hexutil_Decode s) = Some e)
        \/ ((forall s, output <> AnyString s) /\ (forall b, output <> AnyBytes b)
            /\ e = ErrOutputInvalidType)
        \/ (exists data : bytes,
              output_data output = (data, None) /\ data <> []
              /\ (snd (abi_Unpack (Contract_ABI c) method data) = Some e
                  \/ exists res0,
                       snd (abi_UnpackIntoInterface (Contract_ABI c) res0 method data)
                       = Some e))).
Proof.
  unfold DecodeFromMethod. split; [ | split].
  - intros ->. reflexivity.
  - intros s -> Hdec. cbn [output_data]. rewrite Hdec. reflexivity.
  - intros r e.
    destruct (output_data output) as [data [err | ]] eqn:Hout.
    + intros [= _ ->]. unfold output_data in Hout.
      destruct output as [s | b | z | b | a | ];
        try (injection Hout as _ <-; right; left;
             split; [intros s; discriminate | split; [intros b'; discriminate | reflexivity]]).
      * left. exists s. split; [reflexivity | ].
        destruct (hexutil_Decode s) as [d [e' | ]]; [ | discriminate Hout].
        injection Hout as _ ->. reflexivity.
      * discriminate Hout.
    + destruct data as [ | b0 data]; [intros [=] | ].
      cbn [length Nat.eqb].
      intros Hres. right. right. exists (b0 :: data).
      split; [reflexivity | split; [discriminate | ]].
      destruct (match results with None => [] | Some r0 => r0 end) as [ | res0 rest].
      * left. rewrite Hres. reflexivity.
      * right. exists res0.
        destruct (abi_UnpackIntoInterface (Contract_ABI c) res0 method (b0 :: data)).
        injection Hres as _ ->. reflexivity.
Qed.

(** [NewContract] does not make a contract without a wallet: on a nil
    wallet it panics, and a contract it returns holds the wallet given.  The
    nil check of [ExecMethod] is for a [Contract] built field by field. *)
Lemma NewContract_nil_wallet (address : bytes) (abiStr rpc : string) :
  NewContract address abiStr rpc None = Panics.
Proof. reflexivity. Qed.

Lemma NewContract_keeps_wallet (address : bytes) (abiStr rpc : string)
    (wallet : option Wallet) (c : Contract) :
  NewContract address abiStr rpc wallet = Returns (Some c, None) ->
  exists w, wallet = Some w /\ Contract_Wallet c = Some w.
Proof.
  unfold NewContract. destruct wallet as [w | ]; [ | discriminate].
  destruct (abi_JSON abiStr) as [Abi [err | ]]; [discriminate | ].
  intros [= <-]. exists w. split; reflexivity.
Qed.

(** C10.  A contract without a wallet makes [ExecMethod] return the error
    "wallet is nil" with no event at all: no request to the node, no use of
    the key.  With a wallet, whatever the method, the options, the arguments
    and the node's answers, every event of the call carries value zero:
    the gas estimate is asked for value zero, the transaction signed has
    value zero and goes to the contract, and what is sent is that signed
    transaction. *)
Theorem ExecMethod_zero_value (c : Contract) (methodName : string)
    (opts : option TxOpts) (args : list any) (h : list Event) :
  (Contract_Wallet c = None ->
     ExecMethod c methodName opts args h = (Returns ("", Some ErrWalletIsNil), []))
  /\ (forall w : Wallet,
        Contract_Wallet c = Some w ->
        Forall (carries_zero_value c w) (events_of (ExecMethod c methodName opts args) h)).
Proof.
  split.
  - intros Hnil. unfold ExecMethod. rewrite Hnil. reflexivity.
  - intros w Hw. unfold ExecMethod, EncodeData, SendTx, SignTx. rewrite Hw.
    destruct opts as [[[n|] [gl|] [gp|] [tip|] [cap|]] | ]; run_steps;
      repeat (apply Forall_cons; split; [ | ]); try apply Forall_nil;
      cbn; try exact I; try reflexivity; try (repeat split; reflexivity);
      (do 3 eexists;
       refine (conj _ (conj _ (conj _ (conj _ _))));
       [ | | eassumption | eassumption | reflexivity ]; reflexivity).
Qed.

End CodecProperties.

(** The test double obeys the laws of [accounts/abi]. *)
Lemma Mock_abiLaws : AbiLaws (H := Mock.lib).
Proof.
  split.
  - intros ms sigdata m. cbn. unfold Mock.methodById.
    destruct (length sigdata <? 4)%nat; [discriminate | ].
    destruct (find (Mock.method_with_id (take 4 sigdata)) ms) as [m' | ] eqn:Hfind;
      [ | discriminate].
    intros [= <-]. apply find_some in Hfind as [Hin Hid].
    split; [apply list_elem_of_In; exact Hin | ].
    unfold Mock.method_with_id in Hid. apply bool_decide_eq_true in Hid. exact Hid.
  - intros ms sigdata Hnone. cbn in *. unfold Mock.methodById.
    destruct (length sigdata <? 4)%nat; [eexists; reflexivity | ].
    destruct (find (Mock.method_with_id (take 4 sigdata)) ms) as [m | ] eqn:Hfind;
      [ | eexists; reflexivity].
    apply find_some in Hfind as [Hin Hid].
    unfold Mock.method_with_id in Hid. apply bool_decide_eq_true in Hid.
    exfalso. apply (Hnone m); [apply list_elem_of_In; exact Hin | exact Hid].
Qed.

Lemma DecodeData_spec_witness :
  DecodeData (Mock.token None Mock.deadNode) [byte_of 169; byte_of 5; byte_of 156]
  = Returns ("", None, Some ErrDataTooShort)
  /\ (exists e : error,
        DecodeData (Mock.token None Mock.deadNode) (replicate 4 (byte_of 1))
        = Returns ("", None, Some e))
  /\ (exists params : gmap string any,
        DecodeData (Mock.token None Mock.deadNode)
          (abi.ID Mock.transfer ++ replicate 64 (byte_of 0))
        = Returns ("transfer", Some params, None)).
Proof.
  split; [ | split].
  - apply (proj1 (DecodeData_spec Mock_abiLaws (Mock.token None Mock.deadNode)
                    [byte_of 169; byte_of 5; byte_of 156])).
    cbn. lia.
  - apply (proj1 (proj2 (proj2 (DecodeData_spec Mock_abiLaws
                                  (Mock.token None Mock.deadNode)
                                  (replicate 4 (byte_of 1)))))).
    + cbn. lia.
    + intros m Hin Hid. apply list_elem_of_In in Hin.
      destruct Hin as [<- | [<- | []]]; vm_compute in Hid; discriminate Hid.
  - destruct (proj2 (proj2 (proj2 (DecodeData_spec Mock_abiLaws
                                     (Mock.token None Mock.deadNode)
                                     (abi.ID Mock.transfer ++ replicate 64 (byte_of 0))))))
      with (m := Mock.transfer) as (_ & _ & Heq).
    + cbn. lia.
    + reflexivity.
    + eexists. rewrite Heq. reflexivity.
Defined.

Lemma DecodeFromMethod_spec_witness :
  DecodeFromMethod (Mock.token None Mock.deadNode) "balanceOf" (AnyString "0x") None
  = ([], None)
  /\ DecodeFromMethod (Mock.token None Mock.deadNode) "balanceOf" (AnyBytes [])
       (Some [AnyInt 7])
     = ([], None).
Proof.
  split.
  - exact (proj1 (proj2 (DecodeFromMethod_spec (Mock.token None Mock.deadNode)
                           "balanceOf" (AnyString "0x") None))
                 "0x" eq_refl eq_refl).
  - exact (proj1 (DecodeFromMethod_spec (Mock.token None Mock.deadNode)
                    "balanceOf" (AnyBytes []) (Some [AnyInt 7]))
                 eq_refl).
Defined.

Lemma ExecMethod_zero_value_witness :
  ExecMethod (Mock.token None Mock.deadNode) "transfer" None
    [AnyAddress Mock.recipient; AnyInt 100] []
  = (Returns ("", Some ErrWalletIsNil), [])
  /\ Forall (carries_zero_value
              (Mock.token (Some (Mock.wallet (Mock.node 7 60000 20))) (Mock.node 7 60000 20))
              (Mock.wallet (Mock.node 7 60000 20)))
       (events_of
          (ExecMethod
             (Mock.token (Some (Mock.wallet (Mock.node 7 60000 20))) (Mock.node 7 60000 20))
             "transfer" None [AnyAddress Mock.recipient; AnyInt 100]) [])
  /\ (exists (txHash : string) (pre : list Event) (tx : types.DynamicFeeTx)
             (raw : string),
        ExecMethod
          (Mock.token (Some (Mock.wallet (Mock.node 7 60000 20))) (Mock.node 7 60000 20))
          "transfer" None [AnyAddress Mock.recipient; AnyInt 100] []
        = (Returns (txHash, None),
           pre ++ [KeySignNewTx tx (Some 1); EthSendRawTransaction raw])
        /\ types.Value tx = Some 0).
Proof.
  split; [ | split].
  - exact (proj1 (ExecMethod_zero_value (Mock.token None Mock.deadNode) "transfer" None
                    [AnyAddress Mock.recipient; AnyInt 100] []) eq_refl).
  - exact (proj2 (ExecMethod_zero_value
                    (Mock.token (Some (Mock.wallet (Mock.node 7 60000 20)))
                                (Mock.node 7 60000 20))
                    "transfer" None [AnyAddress Mock.recipient; AnyInt 100] [])
                 (Mock.wallet (Mock.node 7 60000 20)) eq_refl).
  - eexists _, [_; _; _], _, _. split; [vm_compute; reflexivity | reflexivity].
Defined.

(** * Further properties *)

(** ** What [InitTxOpts] asks and what it leaves *)

(** Brings the histories in the hypotheses to the form [h ++ [e1; ...]]. *)
Ltac normalize_histories :=
  repeat match goal with
         | Heq : context [(_ ++ _) ++ _] |- _ =>
             rewrite <- app_assoc in Heq; cbn [app] in Heq
         | Heq : context [_ ++ []] |- _ => rewrite app_nil_r in Heq
         end.

(** Closes a goal about the answer to a request with the hypothesis that
    records it. *)
Ltac by_answer :=
  cbn [answer_error is_query];
  rewrite ?app_nil_r;
  match goal with
  | Heq : ?x = (_, _) |- context [?x] => rewrite Heq; reflexivity
  end.

Section ResolutionProperties.

Context `{GoEthereum}.

(** X1.  [InitTxOpts] asks the node only for what the caller left unset, in
    the order nonce (with the tag "pending"), gas estimate (for the sender,
    recipient, amount and data of the call), gas price: the events of a run
    are a prefix of that list, and the whole list when the call succeeds.
    With Nonce, GasLimit and GasPrice set, nothing is asked. *)
Theorem InitTxOpts_asks_only_missing (w : Wallet) (to : bytes) (amount : option Z)
    (data : bytes) (opts : TxOpts) (h : list Event) :
  events_of (InitTxOpts w to amount data (Some opts)) h
    `prefix_of` requests_for w to amount data opts
  /\ (forall o, outcome_of (InitTxOpts w to amount data (Some opts)) h = Returns (o, None) ->
        events_of (InitTxOpts w to amount data (Some opts)) h
        = requests_for w to amount data opts)
  /\ (is_nil (Nonce opts) = false -> is_nil (GasLimit opts) = false ->
      is_nil (GasPrice opts) = false ->
      events_of (InitTxOpts w to amount data (Some opts)) h = []).
Proof.
  unfold requests_for, estimate_request.
  destruct opts as [[n|] [gl|] [gp|] [tip|] [cap|]]; run_steps;
    (split; [ | split ]);
    try (intros; discriminate);
    try (intros; reflexivity);
    try (eexists; reflexivity).
Qed.

(** X2.  When [InitTxOpts] succeeds, all five fields of the record are
    set: [SendTx] and [SendLegacyTx] may dereference Nonce and GasLimit and
    pass the prices on. *)
Theorem InitTxOpts_resolves_all (w : Wallet) (to : bytes) (amount : option Z)
    (data : bytes) (opts : option TxOpts) (h : list Event) (o : TxOpts) :
  outcome_of (InitTxOpts w to amount data opts) h = Returns (o, None) ->
  is_Some (Nonce o) /\ is_Some (GasLimit o) /\ is_Some (GasPrice o)
  /\ is_Some (GasTipCap o) /\ is_Some (GasFeeCap o).
Proof.
  destruct opts as [[[n|] [gl|] [gp|] [tip|] [cap|]] | ]; run_steps;
    intros Hret; try discriminate Hret;
    injection Hret as <-; cbn; repeat split; eexists; reflexivity.
Qed.

(** X3.  When [InitTxOpts] fails, the error is the one in the node's answer
    to the last request of the run: no request follows a failed one, and
    the package adds no error of its own.  GasTipCap and GasFeeCap are then
    as the caller gave them. *)
Theorem InitTxOpts_fails_with_node (w : Wallet) (to : bytes) (amount : option Z)
    (data : bytes) (opts : TxOpts) (h : list Event) (o : TxOpts) (e : error) :
  outcome_of (InitTxOpts w to amount data (Some opts)) h = Returns (o, Some e) ->
  (exists (pre : list Event) (ev : Event),
      events_of (InitTxOpts w to amount data (Some opts)) h = pre ++ [ev]
      /\ is_query ev = true
      /\ answer_error (Wallet_Client w) (h ++ pre) ev = Some e)
  /\ GasTipCap o = GasTipCap opts
  /\ GasFeeCap o = GasFeeCap opts.
Proof.
  destruct opts as [[n|] [gl|] [gp|] [tip|] [cap|]]; run_steps;
    intros Hret; try discriminate Hret;
    injection Hret as <- <-; normalize_histories;
    (split; [ | split; reflexivity ]);
    first [ eexists [], _; split; [reflexivity | split; [reflexivity | by_answer]]
          | eexists [_], _; split; [reflexivity | split; [reflexivity | by_answer]]
          | eexists [_; _], _; split; [reflexivity | split; [reflexivity | by_answer]] ].
Qed.

End ResolutionProperties.

(** ** What [SendTx] signs and sends *)

Section SendProperties.

Context `{GoEthereum}.

(** [SendTx] step by step, in terms of the result of [InitTxOpts]. *)
Lemma SendTx_run (w : Wallet) (to : bytes) (amount : option Z) (data : bytes)
    (opts : option TxOpts) (h : list Event) :
  SendTx w to amount data opts h
  = match InitTxOpts w to amount data opts h with
    | (Panics, pre) => (Panics, pre)
    | (Returns (_, Some e), pre) => (Returns ("", Some e), pre)
    | (Returns (o, None), pre) =>
        match Nonce o, GasLimit o with
        | Some nonce, Some gasLimit =>
            let tx := transaction_of to amount data nonce gasLimit o in
            let signing := KeySignNewTx tx (ChainID w) in
            match SignNewTx (key (Wallet_Signer w)) (ChainID w) tx with
            | (_, Some e) => (Returns ("", Some e), pre ++ [signing])
            | (None, None) => (Panics, pre ++ [signing])
            | (Some signed, None) =>
                match MarshalBinary signed with
                | (_, Some e) => (Returns ("", Some e), pre ++ [signing])
                | (raw, None) =>
                    (Returns (onEthSendRawTransaction (Wallet_Client w)
                                (h ++ pre ++ [signing]) (hexutil_Encode raw)),
                     pre ++ [signing; EthSendRawTransaction (hexutil_Encode raw)])
                end
            end
        | _, _ => (Panics, pre)
        end
    end.
Proof.
  unfold SendTx, SignTx, transaction_of, call, deref, panic,
    mbind, M_bind, bind, mret, M_ret, ret.
  destruct (InitTxOpts w to amount data opts h) as [[[o [e | ]] | ] pre];
    cbn; rewrite ?app_nil_r; try reflexivity.
  destruct (Nonce o) as [nonce | ]; cbn; rewrite ?app_nil_r; [ | reflexivity].
  destruct (GasLimit o) as [gasLimit | ]; cbn; rewrite ?app_nil_r; [ | reflexivity].
  destruct amount as [a | ]; cbn;
    match goal with
    | |- context [SignNewTx ?k ?c ?tx] =>
        destruct (SignNewTx k c tx) as [[signed | ] [e | ]]
    end; cbn; rewrite ?app_nil_r, <- ?app_assoc; try reflexivity;
    destruct (MarshalBinary signed) as [raw [e | ]]; cbn;
    rewrite ?app_nil_r, <- ?app_assoc; try reflexivity;
    destruct (onEthSendRawTransaction _ _ _) as [txHash [e | ]]; reflexivity.
Qed.

(** What every run of [InitTxOpts] is like: it returns, its events are
    requests, and on success Nonce and GasLimit are set. *)
Lemma InitTxOpts_summary (w : Wallet) (to : bytes) (amount : option Z)
    (data : bytes) (opts : option TxOpts) (h : list Event) :
  exists (o : TxOpts) (err : option error) (pre : list Event),
    InitTxOpts w to amount data opts h = (Returns (o, err), pre)
    /\ Forall (fun ev => is_query ev = true) pre
    /\ (err = None -> is_Some (Nonce o) /\ is_Some (GasLimit o)).
Proof.
  destruct opts as [[[n|] [gl|] [gp|] [tip|] [cap|]] | ]; run_steps;
    (eexists _, _, _; split; [reflexivity | split]);
    try (repeat constructor; fail);
    try (intros [=]; fail);
    (intros _; cbn; split; eexists; reflexivity).
Qed.

(** X4.  When [SendTx] succeeds, its events are those of the resolution, then
    one signature, then one submission.  The transaction signed carries the
    resolved nonce and gas limit (converted to [uint64]), the resolved tip
    and fee caps, the recipient, the data, and the amount, a nil amount
    being signed as zero; what is submitted is the hex form of the signed
    transaction's binary form, and the hash returned is the node's answer to
    that submission. *)
Theorem SendTx_success (w : Wallet) (to : bytes) (amount : option Z) (data : bytes)
    (opts : option TxOpts) (h : list Event) (txHash : string) (evs : list Event) :
  SendTx w to amount data opts h = (Returns (txHash, None), evs) ->
  exists (o : TxOpts) (pre : list Event) (nonce gasLimit : Z)
         (signed : Transaction) (raw : bytes),
    InitTxOpts w to amount data opts h = (Returns (o, None), pre)
    /\ Nonce o = Some nonce
    /\ GasLimit o = Some gasLimit
    /\ evs = pre ++ [KeySignNewTx (transaction_of to amount data nonce gasLimit o) (ChainID w);
                     EthSendRawTransaction (hexutil_Encode raw)]
    /\ SignNewTx (key (Wallet_Signer w)) (ChainID w)
         (transaction_of to amount data nonce gasLimit o) = (Some signed, None)
    /\ MarshalBinary signed = (raw, None)
    /\ onEthSendRawTransaction (Wallet_Client w)
         (h ++ pre ++ [KeySignNewTx (transaction_of to amount data nonce gasLimit o)
                         (ChainID w)])
         (hexutil_Encode raw) = (txHash, None).
Proof.
  rewrite SendTx_run.
  destruct (InitTxOpts w to amount data opts h) as [[[o [e | ]] | ] pre];
    try discriminate.
  destruct (Nonce o) as [nonce | ] eqn:Hnonce; [ | discriminate].
  destruct (GasLimit o) as [gasLimit | ] eqn:Hlimit; [ | discriminate].
  cbv zeta.
  destruct (SignNewTx _ _ _) as [[signed | ] [e | ]] eqn:Hsign; try discriminate.
  destruct (MarshalBinary signed) as [raw [e | ]] eqn:Hraw; try discriminate.
  intros [= Hsend <-].
  exists o, pre, nonce, gasLimit, signed, raw.
  repeat split; try reflexivity; try assumption.
Qed.

(** X5.  [SendTx] submits nothing it has not just signed: if a submission is
    among the events of a run, it is the last event, the event before it is
    the signature of a transaction, everything earlier is a request of the
    resolution, and the data submitted is the hex form of the binary form of
    that signed transaction.  A run in which signing or marshalling fails
    submits nothing. *)
Theorem SendTx_submits_only_signed (w : Wallet) (to : bytes) (amount : option Z)
    (data : bytes) (opts : option TxOpts) (h : list Event) (d : string) :
  EthSendRawTransaction d ∈ events_of (SendTx w to amount data opts) h ->
  exists (pre : list Event) (tx : types.DynamicFeeTx) (signed : Transaction)
         (raw : bytes),
    events_of (SendTx w to amount data opts) h
    = pre ++ [KeySignNewTx tx (ChainID w); EthSendRawTransaction d]
    /\ Forall (fun ev => is_query ev = true) pre
    /\ SignNewTx (key (Wallet_Signer w)) (ChainID w) tx = (Some signed, None)
    /\ MarshalBinary signed = (raw, None)
    /\ d = hexutil_Encode raw.
Proof.
  unfold events_of. rewrite SendTx_run.
  destruct (InitTxOpts_summary w to amount data opts h)
    as (o & err & pre & -> & Hpre & Hset).
  assert (Hnot : EthSendRawTransaction d ∉ pre).
  { intros Hin. rewrite Forall_forall in Hpre.
    specialize (Hpre _ Hin). discriminate Hpre. }
  assert (Hnot' : forall tx c, EthSendRawTransaction d ∉ pre ++ [KeySignNewTx tx c]).
  { intros tx c Hin. apply elem_of_app in Hin as [Hin | Hin]; [exact (Hnot Hin) | ].
    apply list_elem_of_singleton in Hin. discriminate Hin. }
  destruct err as [e | ]; cbn [snd]; [intros Hin; destruct (Hnot Hin) | ].
  destruct (Hset eq_refl) as [[nonce ->] [gasLimit ->]]. cbv zeta.
  destruct (SignNewTx _ _ _) as [[signed | ] [e | ]] eqn:Hsign; cbn [snd];
    try (intros Hin; destruct (Hnot' _ _ Hin)).
  destruct (MarshalBinary signed) as [raw [e | ]] eqn:Hraw; cbn [snd];
    try (intros Hin; destruct (Hnot' _ _ Hin)).
  intros Hin.
  assert (Hd : d = hexutil_Encode raw).
  { apply elem_of_app in Hin as [Hin | Hin]; [destruct (Hnot Hin) | ].
    apply elem_of_cons in Hin as [[=] | Hin].
    apply list_elem_of_singleton in Hin. injection Hin as ->. reflexivity. }
  subst d. eexists pre, _, signed, raw.
  repeat split; try reflexivity; assumption.
Qed.

(** X6.  [SendTx] dereferences no nil pointer of its own making: a run
    panics only when the library's signer hands back neither a transaction
    nor an error. *)
Theorem SendTx_panics_only_in_signer (w : Wallet) (to : bytes) (amount : option Z)
    (data : bytes) (opts : option TxOpts) (h : list Event) :
  outcome_of (SendTx w to amount data opts) h = Panics ->
  exists tx : types.DynamicFeeTx,
    KeySignNewTx tx (ChainID w) ∈ events_of (SendTx w to amount data opts) h
    /\ SignNewTx (key (Wallet_Signer w)) (ChainID w) tx = (None, None).
Proof.
  unfold outcome_of, events_of. rewrite SendTx_run.
  destruct (InitTxOpts_summary w to amount data opts h)
    as (o & err & pre & -> & Hpre & Hset).
  destruct err as [e | ]; cbn [fst]; [discriminate | ].
  destruct (Hset eq_refl) as [[nonce ->] [gasLimit ->]]. cbv zeta.
  destruct (SignNewTx _ _ _) as [[signed | ] [e | ]] eqn:Hsign; cbn [fst snd];
    try discriminate.
  - destruct (MarshalBinary signed) as [raw [e | ]]; discriminate.
  - intros _. eexists. split; [ | exact Hsign].
    apply elem_of_app. right. apply list_elem_of_singleton. reflexivity.
Qed.

End SendProperties.

(** ** More on signatures *)

Section SignatureProperties.

Context `{Libraries}.

(** X7.  The two conventions for the recovery byte are interchangeable: for a
    65-byte signature ending in 0 or 1, [Ecrecover] gives the same result
    on it and on the signature with 27 added to its last byte. *)
Theorem Ecrecover_conventions_agree (hash sig : bytes) (v : ascii) :
  length sig = 65%nat -> sig !! 64%nat = Some v ->
  N_of_ascii v = 0%N \/ N_of_ascii v = 1%N ->
  Ecrecover hash (<[64%nat := byte_add v 27]> sig) = Ecrecover hash sig.
Proof.
  intros Hlen Hv Hid.
  destruct (add_27_normalized v Hid) as [Hhigh Hback].
  rewrite (Ecrecover_normalizes _ _ (byte_add v 27));
    [ | rewrite length_insert; exact Hlen
      | apply list_lookup_insert_eq; rewrite Hlen; lia
      | exact Hhigh ].
  rewrite list_insert_insert_eq, Hback, (list_insert_id _ _ _ Hv).
  symmetry. apply (Ecrecover_raw_id _ _ v Hlen Hv Hid).
Qed.

(** X8.  If a key recovered by the library is never empty and a digest is 32
    bytes, [Ecrecover] returns on every input: it does not panic.  With an
    error it returns the zero address; an error of the primitive is wrapped
    as "can not ecrecover".  Without an error the address is the last 20
    bytes of the digest of the key without its first byte. *)
Theorem Ecrecover_returns (hash sig : bytes) :
  (forall (h s pub : bytes), crypto_Ecrecover h s = (pub, None) -> pub <> []) ->
  (forall b : bytes, length (Keccak256 b) = 32%nat) ->
  exists (pub address : bytes) (err : option error),
    Ecrecover hash sig = Returns (pub, address, err)
    /\ (forall e, err = Some e ->
          address = zeroAddress
          /\ (e = ErrInvalidSigLength (length sig) \/ e = ErrInvalidSigType
              \/ exists cause, e = ErrCanNotEcrecover cause))
    /\ (err = None ->
          address = BytesToAddress (drop 12 (Keccak256 (drop 1 pub)))).
Proof.
  intros Hpub Hdigest. unfold Ecrecover.
  destruct (length sig =? 65)%nat eqn:Hlen; cbn [negb].
  2: { eexists _, _, _. split; [reflexivity | ]. split; [ | discriminate].
       intros e [= <-]. split; [reflexivity | left; reflexivity]. }
  apply Nat.eqb_eq in Hlen.
  destruct (sig !! 64%nat) as [v | ] eqn:Hv.
  2: { apply lookup_ge_None in Hv. lia. }
  match goal with |- context [if ?b then _ else _] => destruct b end.
  { eexists _, _, _. split; [reflexivity | ]. split; [ | discriminate].
    intros e [= <-]. split; [reflexivity | right; left; reflexivity]. }
  cbv zeta. unfold Ecrecover_recovered.
  match goal with
  | |- context [crypto_Ecrecover hash ?s] =>
      destruct (crypto_Ecrecover hash s) as [pub [cause | ]] eqn:Hrec
  end.
  { eexists _, _, _. split; [reflexivity | ]. split; [ | discriminate].
    intros e [= <-]. split; [reflexivity | right; right; eexists; reflexivity]. }
  apply Hpub in Hrec. unfold slice_from.
  destruct pub as [ | b0 pub]; [contradiction | ]. cbn [length Nat.leb].
  rewrite Hdigest. cbn [Nat.leb].
  eexists _, _, _. split; [reflexivity | ]. split; [discriminate | ].
  intros _. reflexivity.
Qed.

(** X9.  Typed-data signatures recover like message signatures: under the
    library's laws, when the typed-data hash of a document succeeds,
    [SignTypedData] returns a signature ending in 27 or 28 and [Ecrecover]
    on the hash and that signature returns the signer's public key and
    address.  When the hash fails, [SignTypedData] returns its error and a
    nil signature. *)
Theorem SignTypedData_Ecrecover (laws : CryptoLaws) (prvHex : string) (s : Signer)
    (typedData : TypedData) :
  NewSigner prvHex = Returns (Some s, None) ->
  (forall (r : bytes) (e : error),
      EIP712Hash typedData = (r, Some e) ->
      SignTypedData s typedData = Returns ([], Some e))
  /\ (forall hash : bytes,
        EIP712Hash typedData = (hash, None) ->
        exists (sig : bytes) (v : ascii),
          SignTypedData s typedData = Returns (sig, None)
          /\ sig !! 64%nat = Some v
          /\ (N_of_ascii v = 27%N \/ N_of_ascii v = 28%N)
          /\ Ecrecover hash sig = Returns (GetPublicKey s, Signer_Address s, None)).
Proof.
  intros Hnew. split.
  { intros r e Hhash. unfold SignTypedData. rewrite Hhash. reflexivity. }
  intros hash Hhash.
  assert (Haddr : Signer_Address s = PubkeyToAddress (PublicKeyOf (key s))).
  { unfold NewSigner in Hnew.
    destruct (HexToECDSA prvHex) as [[k | ] [e | ]]; try discriminate Hnew.
    injection Hnew as <-. reflexivity. }
  assert (Hlen32 : length hash = 32%nat).
  { unfold EIP712Hash in Hhash.
    destruct (HashStruct typedData "EIP712Domain" (Domain_Map typedData)) as [ds [e | ]];
      [discriminate | ].
    destruct (HashStruct typedData (PrimaryType typedData) (Message typedData))
      as [mh [e | ]]; [discriminate | ].
    injection Hhash as <-. apply (Keccak256_length laws). }
  destruct (Sign_Ecrecover laws hash (key s) Hlen32)
    as (sig0 & v0 & Hsign & Hlen & Hv0 & Hid & Hrec).
  destruct (add_27_normalized v0 Hid) as [Hv Hback].
  exists (<[64%nat := byte_add v0 27]> sig0), (byte_add v0 27).
  assert (Hlook : <[64%nat := byte_add v0 27]> sig0 !! 64%nat = Some (byte_add v0 27)).
  { apply list_lookup_insert_eq. rewrite Hlen. lia. }
  split; [ | split; [exact Hlook | split; [exact Hv | ]]].
  - unfold SignTypedData, add_at. rewrite Hhash, Hsign, Hv0. reflexivity.
  - rewrite (Ecrecover_normalizes _ _ (byte_add v0 27));
      [ | rewrite length_insert; exact Hlen | exact Hlook | exact Hv ].
    rewrite list_insert_insert_eq, Hback, (list_insert_id _ _ _ Hv0).
    unfold Ecrecover_recovered, slice_from. rewrite Hrec.
    rewrite (FromECDSAPub_length laws). cbn [Nat.leb].
    rewrite (Keccak256_length laws). cbn [Nat.leb].
    rewrite Haddr, (PubkeyToAddress_Keccak256 laws). reflexivity.
Qed.

(** X10.  A message encrypted to a signer's public key, given in the hex form
    of [GetPublicKeyHex], is decrypted by that signer: if hex decoding
    undoes hex encoding on the key, the library parses the key back, and
    the library's decryption undoes its encryption for this key pair, then
    [Decrypt] of what [Encrypt] returned is the message. *)
Theorem Decrypt_Encrypt (s : Signer) (rnd : Rand) (message ct : bytes) :
  FromHex (GetPublicKeyHex s) = GetPublicKey s ->
  UnmarshalPubkey (GetPublicKey s) = (Some (PublicKeyOf (key s)), None) ->
  (forall c, ecies_Encrypt rnd (PublicKeyOf (key s)) message = (c, None) ->
             ecies_Decrypt (key s) c = (message, None)) ->
  Encrypt rnd (GetPublicKeyHex s) message = Returns (ct, None) ->
  Decrypt s ct = (message, None).
Proof.
  intros Hhex Hparse Hecies. unfold Encrypt, Decrypt.
  rewrite Hhex, Hparse.
  destruct (ecies_Encrypt rnd (PublicKeyOf (key s)) message) as [c [e | ]] eqn:Henc;
    [discriminate | ].
  intros [= <-]. apply Hecies. reflexivity.
Qed.

End SignatureProperties.

(** ** More on the contract codec *)

Section CodecRestProperties.

Context `{Libraries}.

(** X11.  [DecodeFromMethod] treats a hex string like the bytes it decodes
    to: when [hexutil.Decode] succeeds on the string, the result and the
    error are those of the call on the decoded byte slice, for every method
    and every [results]. *)
Theorem DecodeFromMethod_hex_as_bytes (c : Contract) (method value : string)
    (data : bytes) (results : option (list any)) :
  hexutil_Decode value = (data, None) ->
  DecodeFromMethod c method (AnyString value) results
  = DecodeFromMethod c method (AnyBytes data) results.
Proof.
  intros Hdec. unfold DecodeFromMethod, output_data. rewrite Hdec. reflexivity.
Qed.

(** X12.  [DecodeData] undoes [EncodeData] at the selector: if the library
    packs a call as the four-byte ID of a method followed by the packed
    arguments, and finds that method by its ID, then decoding what
    [EncodeData] returned gives that method's name and the map the library
    unpacks from exactly the packed arguments.  The hex forms agree when hex
    decoding undoes hex encoding on the data. *)
Theorem DecodeData_EncodeData (c : Contract) (methodName : string) (args : list any)
    (m : abi.Method Arguments) (packed : bytes) :
  abi_Pack (Contract_ABI c) methodName args = (abi.ID m ++ packed, None) ->
  length (abi.ID m) = 4%nat ->
  abi_MethodById (Contract_ABI c) (abi.ID m) = (Some m, None) ->
  DecodeData c (fst (EncodeData c methodName args))
  = Returns (abi.Name m,
             Some (fst (Arguments_UnpackIntoMap (abi.Inputs m) ∅ packed)),
             snd (Arguments_UnpackIntoMap (abi.Inputs m) ∅ packed))
  /\ (FromHex (hexutil_Encode (abi.ID m ++ packed)) = abi.ID m ++ packed ->
      DecodeDataHex c (fst (EncodeDataHex c methodName args))
      = DecodeData c (fst (EncodeData c methodName args))).
Proof.
  intros Hpack Hlen Hby.
  assert (Henc : EncodeData c methodName args = (abi.ID m ++ packed, None))
    by (unfold EncodeData; rewrite Hpack; reflexivity).
  split.
  - rewrite Henc. cbn [fst]. unfold DecodeData.
    rewrite length_app, Hlen. cbn [Nat.add Nat.ltb Nat.leb].
    rewrite (take_app_length' _ _ 4) by (symmetry; exact Hlen).
    rewrite (drop_app_length' _ _ 4) by (symmetry; exact Hlen).
    rewrite Hby.
    destruct (Arguments_UnpackIntoMap (abi.Inputs m) ∅ packed); reflexivity.
  - intros Hhex. unfold DecodeDataHex, EncodeDataHex. rewrite Henc. cbn [fst].
    rewrite Hhex. reflexivity.
Qed.

(** X13.  [DecodeEvent] fails on no topics without looking anything up.  For
    a known event it needs one topic per indexed input besides the first:
    if the library rejects a topic list whose length differs from that of
    the fields it is given, then with any other number of topics
    [DecodeEvent] returns the event's name, an empty map and an error, and
    the data is not unpacked. *)
Theorem DecodeEvent_topic_count (c : Contract) (topic0 : bytes) (rest : list bytes)
    (data : bytes) (event : abiEvent.Event Arguments) :
  (forall l : list Argument, Arguments_items (Arguments_of l) = l) ->
  (forall (v : gmap string any) (fields : Arguments) (topics : list bytes),
      length (Arguments_items fields) <> length topics ->
      exists e, ParseTopicsIntoMap v fields topics = (v, Some e)) ->
  abi_EventByID (Contract_ABI c) topic0 = (Some event, None) ->
  length rest
  <> length (List.filter Argument_Indexed (Arguments_items (abiEvent.Inputs event))) ->
  DecodeEvent c [] data = Returns ("", None, Some ErrNoTopicsFound)
  /\ exists e : error,
       DecodeEvent c (topic0 :: rest) data
       = Returns (abiEvent.Name event, Some ∅, Some e).
Proof.
  intros Hitems Hcount Hby Hlen. split; [reflexivity | ].
  unfold DecodeEvent. rewrite Hby. cbv zeta.
  destruct (Hcount ∅
              (Arguments_of
                 (List.filter Argument_Indexed (Arguments_items (abiEvent.Inputs event))))
              rest) as [e He].
  { rewrite Hitems. intros Heq. apply Hlen. symmetry. exact Heq. }
  exists e. rewrite He. reflexivity.
Qed.

(** X14.  [ExecMethod] contacts nobody when the call does not encode: it
    returns the library's packing error with no event.  When it encodes,
    the only transaction the key signs carries exactly the packed call as
    its data. *)
Theorem ExecMethod_signs_packed_call (c : Contract) (w : Wallet) (methodName : string)
    (opts : option TxOpts) (args : list any) (h : list Event) :
  Contract_Wallet c = Some w ->
  (forall (r : bytes) (e : error),
      abi_Pack (Contract_ABI c) methodName args = (r, Some e) ->
      ExecMethod c methodName opts args h = (Returns ("", Some e), []))
  /\ (forall (data : bytes) (tx : types.DynamicFeeTx) (chainID : option Z),
        abi_Pack (Contract_ABI c) methodName args = (data, None) ->
        KeySignNewTx tx chainID ∈ events_of (ExecMethod c methodName opts args) h ->
        types.Data tx = data).
Proof.
  intros Hw. unfold ExecMethod, EncodeData. rewrite Hw. split.
  - intros r e ->. reflexivity.
  - intros data tx chainID ->. unfold events_of, mbind, M_bind, bind.
    rewrite SendTx_run.
    destruct (InitTxOpts_summary w (Contract_Address c) (Some 0) data opts h)
      as (o & err & pre & -> & Hpre & Hset).
    assert (Hnot : KeySignNewTx tx chainID ∉ pre).
    { intros Hin. rewrite Forall_forall in Hpre.
      specialize (Hpre _ Hin). discriminate Hpre. }
    destruct err as [e | ]; cbn; rewrite ?app_nil_r; [intros Hin; destruct (Hnot Hin) | ].
    destruct (Hset eq_refl) as [[nonce ->] [gasLimit ->]]. cbn.
    assert (Hsigned : forall rest,
               Forall (fun ev => forall t ch, ev = KeySignNewTx t ch -> False) rest ->
               KeySignNewTx tx chainID
                 ∈ pre ++ KeySignNewTx (transaction_of (Contract_Address c) (Some 0)
                                          data nonce gasLimit o) (ChainID w) :: rest ->
               types.Data tx = data).
    { intros rest Hrest Hin.
      apply elem_of_app in Hin as [Hin | Hin]; [destruct (Hnot Hin) | ].
      apply elem_of_cons in Hin as [[= -> _] | Hin]; [reflexivity | ].
      rewrite Forall_forall in Hrest. destruct (Hrest _ Hin _ _ eq_refl). }
    destruct (SignNewTx _ _ _) as [[signed | ] [e | ]]; cbn; rewrite ?app_nil_r;
      try (apply (Hsigned []); constructor).
    destruct (MarshalBinary signed) as [raw [e | ]]; cbn; rewrite ?app_nil_r;
      try (apply (Hsigned []); constructor).
    destruct (onEthSendRawTransaction _ _ _) as [txHash [e | ]]; cbn;
      rewrite ?app_nil_r;
      (apply (Hsigned [EthSendRawTransaction (hexutil_Encode raw)]);
       repeat constructor; intros t ch [=]).
Qed.

End CodecRestProperties.

(** ** Construction of a wallet *)

Section NewWalletProperties.

Context `{Libraries}.

Lemma applyOptions_app (cfg : WalletConfig) (l1 l2 : list WalletOption) :
  applyOptions cfg (l1 ++ l2)
  = match applyOptions cfg l1 with
    | Returns cfg' => applyOptions cfg' l2
    | Panics => Panics
    end.
Proof.
  revert cfg. induction l1 as [ | opt l1 IH]; intros cfg; cbn.
  - reflexivity.
  - destruct (applyOption cfg opt) as [cfg' | ]; [apply IH | reflexivity].
Qed.

(** Only a nil wallet among the options makes the loop panic. *)
Lemma applyOptions_returns (cfg : WalletConfig) (l : list WalletOption) :
  OptWallet None ∉ l -> exists cfg', applyOptions cfg l = Returns cfg'.
Proof.
  revert cfg. induction l as [ | opt l IH]; intros cfg Hnil; cbn.
  - eexists. reflexivity.
  - assert (Hl : OptWallet None ∉ l) by (intros Hin; apply Hnil; right; exact Hin).
    destruct opt as [f | client | version | chainID | [w | ] | ]; cbn;
      try (apply IH; exact Hl).
    exfalso. apply Hnil. left.
Qed.

Lemma applyOptions_leaves_chain (cfg : WalletConfig) (l : list WalletOption) :
  Forall (fun opt => leaves_chain opt = true) l ->
  exists cfg', applyOptions cfg l = Returns cfg'
               /\ cfg_version cfg' = cfg_version cfg
               /\ cfg_chainID cfg' = cfg_chainID cfg.
Proof.
  revert cfg. induction l as [ | opt l IH]; intros cfg Hall; cbn.
  - eexists. repeat split.
  - inversion Hall as [ | ? ? Hopt Hl]; subst.
    destruct opt as [f | client | version | chainID | w | ]; try discriminate Hopt; cbn;
      match goal with
      | |- context [applyOptions ?c l] => destruct (IH c Hl) as (cfg' & -> & Hv & Hc)
      end; eexists; repeat split; assumption.
Qed.

Lemma applyOptions_leaves_client (cfg : WalletConfig) (l : list WalletOption) :
  Forall (fun opt => leaves_client opt = true) l ->
  exists cfg', applyOptions cfg l = Returns cfg'
               /\ cfg_version cfg' = cfg_version cfg
               /\ cfg_chainID cfg' = cfg_chainID cfg
               /\ cfg_client cfg' = cfg_client cfg.
Proof.
  revert cfg. induction l as [ | opt l IH]; intros cfg Hall; cbn.
  - eexists. repeat split.
  - inversion Hall as [ | ? ? Hopt Hl]; subst.
    destruct opt as [f | client | version | chainID | w | ]; try discriminate Hopt; cbn;
      match goal with
      | |- context [applyOptions ?c l] =>
          destruct (IH c Hl) as (cfg' & -> & Hv & Hc & Hcl)
      end; eexists; repeat split; assumption.
Qed.

Lemma applyOptions_client_options (cfg : WalletConfig) (fs : list ClientOption) :
  applyOptions cfg (map OptClientOption fs)
  = Returns (mkWalletConfig (cfg_clientOptions cfg ++ fs) (cfg_client cfg)
               (cfg_version cfg) (cfg_chainID cfg)).
Proof.
  revert cfg. induction fs as [ | f fs IH]; intros cfg; cbn.
  - rewrite app_nil_r. destruct cfg; reflexivity.
  - rewrite IH. cbn. rewrite <- app_assoc. reflexivity.
Qed.

(** X15.  A chain id given as an option settles the chain: when the options
    hold a non-nil [*big.Int] followed only by client options, clients and
    ignored values, [NewWallet] asks the node nothing and returns a wallet
    with that chain id, the signer of the key and the signer's address. *)
Theorem NewWallet_explicit_chain_id (prvHex rpc : string) (s : Signer) (z : Z)
    (pre post : list WalletOption) :
  OptWallet None ∉ pre ->
  Forall (fun opt => leaves_chain opt = true) post ->
  NewSigner prvHex = Returns (Some s, None) ->
  Int_String (Some z) <> "" ->
  exists w : Wallet,
    NewWallet prvHex rpc (pre ++ OptChainID (Some z) :: post)
    = (Returns (Some w, None), [])
    /\ ChainID w = Some z
    /\ Wallet_Signer w = s
    /\ Wallet_Address w = Signer_Address s.
Proof.
  intros Hpre Hpost Hnew Hstr. unfold NewWallet.
  rewrite applyOptions_app.
  destruct (applyOptions_returns (mkWalletConfig [] None "" None) pre Hpre) as [cfg0 ->].
  cbn [applyOptions applyOption].
  destruct (applyOptions_leaves_chain
              (mkWalletConfig (cfg_clientOptions cfg0) (cfg_client cfg0)
                 (Int_String (Some z)) (Some z)) post Hpost)
    as (cfg & -> & Hv & Hc).
  cbn in Hv, Hc. rewrite Hnew, Hv, Hc.
  apply String.eqb_neq in Hstr. rewrite Hstr.
  eexists. split; [reflexivity | ]. repeat split.
Qed.

(** X16.  A wallet given as an option hands over its client and its chain
    id: when the options hold a wallet followed only by client options and
    ignored values, [NewWallet] asks the node nothing and returns a wallet
    on the same client and chain for the new key.  If the wallet given has
    no chain id, the node is not asked either: the call fails with
    "wrong chainID" on the text the library prints for nil. *)
Theorem NewWallet_from_wallet (prvHex rpc : string) (s : Signer) (w0 : Wallet)
    (pre post : list WalletOption) :
  OptWallet None ∉ pre ->
  Forall (fun opt => leaves_client opt = true) post ->
  NewSigner prvHex = Returns (Some s, None) ->
  Int_String (ChainID w0) <> "" ->
  (forall z, ChainID w0 = Some z ->
     NewWallet prvHex rpc (pre ++ OptWallet (Some w0) :: post)
     = (Returns (Some (mkWallet (Signer_Address s) (Some z) s (Wallet_Client w0)), None),
        []))
  /\ (ChainID w0 = None -> Int_SetString10 (Int_String None) = None ->
     NewWallet prvHex rpc (pre ++ OptWallet (Some w0) :: post)
     = (Returns (None, Some (ErrWrongChainID (Int_String None))), [])).
Proof.
  intros Hpre Hpost Hnew Hstr.
  assert (Hrun : NewWallet prvHex rpc (pre ++ OptWallet (Some w0) :: post)
                 = match ChainID w0 with
                   | Some z =>
                       (Returns (Some (mkWallet (Signer_Address s) (Some z) s
                                         (Wallet_Client w0)), None), [])
                   | None =>
                       match Int_SetString10 (Int_String None) with
                       | None => (Returns (None, Some (ErrWrongChainID (Int_String None))), [])
                       | Some z =>
                           (Returns (Some (mkWallet (Signer_Address s) (Some z) s
                                             (Wallet_Client w0)), None), [])
                       end
                   end).
  { unfold NewWallet. rewrite applyOptions_app.
    destruct (applyOptions_returns (mkWalletConfig [] None "" None) pre Hpre)
      as [cfg0 ->].
    cbn [applyOptions applyOption].
    destruct (applyOptions_leaves_client
                (mkWalletConfig (cfg_clientOptions cfg0) (Some (Wallet_Client w0))
                   (Int_String (ChainID w0)) (ChainID w0)) post Hpost)
      as (cfg & -> & Hv & Hc & Hcl).
    cbn in Hv, Hc, Hcl. rewrite Hnew, Hv, Hc, Hcl.
    apply String.eqb_neq in Hstr. rewrite Hstr.
    destruct (ChainID w0); reflexivity. }
  split.
  - intros z Hz. rewrite Hrun, Hz. reflexivity.
  - intros Hz Hparse. rewrite Hrun, Hz, Hparse. reflexivity.
Qed.

(** X17.  With no option but client options, [NewWallet] makes its client
    from the URL and those options in their order, asks it for the network
    version once, and takes the chain id from the answer: the node's error
    is returned as it is, an answer that is not a decimal number gives
    "wrong chainID" with the answer in the message, and a decimal answer
    gives a wallet with that chain id on that client. *)
Theorem NewWallet_asks_version (prvHex rpc : string) (s : Signer)
    (fs : list ClientOption) :
  NewSigner prvHex = Returns (Some s, None) ->
  (forall version e,
      NetVersion (ethrpc_New rpc fs) = (version, Some e) ->
      NewWallet prvHex rpc (map OptClientOption fs)
      = (Returns (None, Some e), [NetVersionRequest (ethrpc_New rpc fs)]))
  /\ (forall version,
      NetVersion (ethrpc_New rpc fs) = (version, None) ->
      Int_SetString10 version = None ->
      NewWallet prvHex rpc (map OptClientOption fs)
      = (Returns (None, Some (ErrWrongChainID version)),
         [NetVersionRequest (ethrpc_New rpc fs)]))
  /\ (forall version z,
      NetVersion (ethrpc_New rpc fs) = (version, None) ->
      Int_SetString10 version = Some z ->
      NewWallet prvHex rpc (map OptClientOption fs)
      = (Returns (Some (mkWallet (Signer_Address s) (Some z) s (ethrpc_New rpc fs)), None),
         [NetVersionRequest (ethrpc_New rpc fs)])).
Proof.
  intros Hnew. unfold NewWallet.
  rewrite applyOptions_client_options, Hnew. cbn.
  repeat split.
  - intros version e ->. reflexivity.
  - intros version -> ->. reflexivity.
  - intros version z -> ->. reflexivity.
Qed.

(** X18.  A key that does not parse is reported before the node is
    contacted: whatever the options, short of a nil wallet among them,
    [NewWallet] returns the library's error for the key and makes no
    request. *)
Theorem NewWallet_bad_key (prvHex rpc : string) (options : list WalletOption)
    (k : option PrivateKey) (e : error) :
  OptWallet None ∉ options ->
  HexToECDSA prvHex = (k, Some e) ->
  NewWallet prvHex rpc options = (Returns (None, Some e), []).
Proof.
  intros Hopts Hkey. unfold NewWallet, NewSigner.
  destruct (applyOptions_returns (mkWalletConfig [] None "" None) options Hopts)
    as [cfg ->].
  rewrite Hkey. destruct k; reflexivity.
Qed.

(** X19.  A network version given as a string replaces the question to the
    node: with a non-empty string among options that otherwise say nothing
    about the network, [NewWallet] makes no request; the chain id is the
    string read as a decimal number, and a string that is no decimal number
    gives "wrong chainID". *)
Theorem NewWallet_version_option (prvHex rpc version : string) (s : Signer)
    (pre post : list WalletOption) :
  Forall (fun opt => leaves_chain opt = true) pre ->
  Forall (fun opt => leaves_chain opt = true) post ->
  NewSigner prvHex = Returns (Some s, None) ->
  version <> "" ->
  (Int_SetString10 version = None ->
     NewWallet prvHex rpc (pre ++ OptVersion version :: post)
     = (Returns (None, Some (ErrWrongChainID version)), []))
  /\ (forall z, Int_SetString10 version = Some z ->
     exists w : Wallet,
       NewWallet prvHex rpc (pre ++ OptVersion version :: post)
       = (Returns (Some w, None), [])
       /\ ChainID w = Some z /\ Wallet_Signer w = s).
Proof.
  intros Hpre Hpost Hnew Hne. unfold NewWallet.
  rewrite applyOptions_app.
  destruct (applyOptions_leaves_chain (mkWalletConfig [] None "" None) pre Hpre)
    as (cfg0 & -> & _ & Hc0).
  cbn [applyOptions applyOption].
  destruct (applyOptions_leaves_chain
              (mkWalletConfig (cfg_clientOptions cfg0) (cfg_client cfg0)
                 version (cfg_chainID cfg0)) post Hpost)
    as (cfg & -> & Hv & Hc).
  cbn in Hv, Hc, Hc0. rewrite Hnew, Hv, Hc, Hc0.
  apply String.eqb_neq in Hne. rewrite Hne.
  split.
  - intros ->. reflexivity.
  - intros z ->. eexists. split; [reflexivity | ]. split; reflexivity.
Qed.

End NewWalletProperties.

(** ** The two fee estimates after a default resolution *)

Section FeeProperties.

Context `{GoEthereum}.

(** X20.  After a resolution that defaulted the caps (GasTipCap or GasFeeCap
    was unset), both fee helpers succeed on the resolved record, and the
    dynamic-fee estimate is three times the legacy one:
    (2 × price + price) × limit against price × limit. *)
Theorem InitTxOpts_default_fee_triples (w : Wallet) (to : bytes) (amount : option Z)
    (data : bytes) (opts : TxOpts) (h : list Event) (o : TxOpts) :
  outcome_of (InitTxOpts w to amount data (Some opts)) h = Returns (o, None) ->
  GasTipCap opts = None \/ GasFeeCap opts = None ->
  exists fee : Z,
    GetOldFee o = (Some fee, None) /\ GetNewFee o = (Some (3 * fee), None).
Proof.
  destruct opts as [[n|] [gl|] [gp|] [tip|] [cap|]]; run_steps;
    intros Hret Hnil; try discriminate Hret;
    try (destruct Hnil as [Hnil | Hnil]; discriminate Hnil);
    injection Hret as <-; unfold GetOldFee, GetNewFee; cbn;
    eexists; (split; [reflexivity | ]); do 2 f_equal; ring.
Qed.

End FeeProperties.

(** ** The further properties on concrete runs *)

Lemma InitTxOpts_asks_only_missing_witness :
  events_of
    (InitTxOpts (Mock.wallet Mock.deadNode) Mock.recipient (Some 5) []
       (Some (mkTxOpts (Some 1) (Some 21000) (Some 100) None None))) []
  = []
  /\ events_of
       (InitTxOpts (Mock.wallet (Mock.node 7 21000 20)) Mock.recipient (Some 5) []
          (Some (mkTxOpts (Some 1) None None None None))) []
     = [EthEstimateGas (estimate_request (Mock.wallet (Mock.node 7 21000 20))
                          Mock.recipient (Some 5) []);
        EthGasPrice].
Proof.
  split.
  - exact (proj2 (proj2 (InitTxOpts_asks_only_missing (Mock.wallet Mock.deadNode)
                           Mock.recipient (Some 5) []
                           (mkTxOpts (Some 1) (Some 21000) (Some 100) None None) []))
                 eq_refl eq_refl eq_refl).
  - exact (proj1 (proj2 (InitTxOpts_asks_only_missing (Mock.wallet (Mock.node 7 21000 20))
                           Mock.recipient (Some 5) []
                           (mkTxOpts (Some 1) None None None None) []))
                 (mkTxOpts (Some 1) (Some 21000) (Some 20) (Some 20) (Some 20)) eq_refl).
Defined.

Lemma InitTxOpts_resolves_all_witness :
  is_Some (Nonce (mkTxOpts (Some 7) (Some 21000) (Some 20) (Some 20) (Some 20)))
  /\ is_Some (GasFeeCap (mkTxOpts (Some 7) (Some 21000) (Some 20) (Some 20) (Some 20))).
Proof.
  destruct (InitTxOpts_resolves_all (Mock.wallet (Mock.node 7 21000 20)) Mock.recipient
              None [] None []
              (mkTxOpts (Some 7) (Some 21000) (Some 20) (Some 20) (Some 20)) eq_refl)
    as (Hnonce & _ & _ & _ & Hcap).
  split; [exact Hnonce | exact Hcap].
Defined.

Lemma InitTxOpts_fails_with_node_witness :
  exists (pre : list Event) (ev : Event),
    events_of
      (InitTxOpts (Mock.wallet Mock.deadNode) Mock.recipient None []
         (Some (mkTxOpts (Some 1) None None (Some 5) None))) []
    = pre ++ [ev]
    /\ is_query ev = true
    /\ answer_error Mock.deadNode ([] ++ pre) ev
       = Some (ErrExternal "connection refused").
Proof.
  exact (proj1 (InitTxOpts_fails_with_node (Mock.wallet Mock.deadNode) Mock.recipient
                  None [] (mkTxOpts (Some 1) None None (Some 5) None) []
                  (mkTxOpts (Some 1) None None (Some 5) None)
                  (ErrExternal "connection refused") eq_refl)).
Defined.

Lemma SendTx_success_witness :
  exists (txHash : string) (evs : list Event) (o : TxOpts) (pre : list Event)
         (nonce gasLimit : Z),
    SendTx (Mock.wallet (Mock.node 7 21000 20)) Mock.recipient None [] None []
    = (Returns (txHash, None), evs)
    /\ InitTxOpts (Mock.wallet (Mock.node 7 21000 20)) Mock.recipient None [] None []
       = (Returns (o, None), pre)
    /\ evs = pre ++ [KeySignNewTx (transaction_of Mock.recipient None [] nonce gasLimit o)
                       (Some 1);
                     EthSendRawTransaction txHash]
    /\ types.Value (transaction_of Mock.recipient None [] nonce gasLimit o) = Some 0.
Proof.
  assert (Hrun : { r : string * list Event |
                   SendTx (Mock.wallet (Mock.node 7 21000 20)) Mock.recipient None [] None []
                   = (Returns (fst r, None), snd r) }).
  { eexists (_, _). vm_compute. reflexivity. }
  destruct Hrun as [[txHash evs] Hrun]. cbn [fst snd] in Hrun.
  destruct (SendTx_success _ _ _ _ _ _ _ _ Hrun)
    as (o & pre & nonce & gasLimit & signed & raw & Hinit & _ & _ & Hevs & _ & _ & Hsend).
  exists txHash, evs, o, pre, nonce, gasLimit.
  split; [exact Hrun | split; [exact Hinit | split; [ | reflexivity]]].
  rewrite Hevs. do 3 f_equal.
  cbn in Hsend. injection Hsend as <-. reflexivity.
Defined.

Lemma SendTx_submits_only_signed_witness :
  exists (d : string) (pre : list Event) (tx : types.DynamicFeeTx),
    events_of (SendTx (Mock.wallet (Mock.node 7 21000 20)) Mock.recipient (Some 5) []
                 None) []
    = pre ++ [KeySignNewTx tx (Some 1); EthSendRawTransaction d]
    /\ Forall (fun ev => is_query ev = true) pre.
Proof.
  assert (Hin : { d : string |
                  EthSendRawTransaction d
                    ∈ events_of (SendTx (Mock.wallet (Mock.node 7 21000 20))
                                   Mock.recipient (Some 5) [] None) [] }).
  { eexists. vm_compute. do 4 apply list_elem_of_further. apply list_elem_of_here. }
  destruct Hin as [d Hin].
  destruct (SendTx_submits_only_signed _ _ _ _ _ _ _ Hin)
    as (pre & tx & signed & raw & Hevs & Hpre & _).
  exists d, pre, tx. split; [exact Hevs | exact Hpre].
Defined.

Lemma SendTx_panics_only_in_signer_witness :
  exists tx : types.DynamicFeeTx,
    SignNewTx (GoEthereum := MockRest.silentSigner) 1%N (Some 1) tx = (None, None)
    /\ types.Value tx = Some 5.
Proof.
  destruct (SendTx_panics_only_in_signer (H := MockRest.silentSigner)
              (MockRest.silentWallet (Mock.node 7 21000 20)) Mock.recipient (Some 5) []
              None [] eq_refl)
    as (tx & Hin & Hsign).
  exists tx. split; [exact Hsign | ].
  vm_compute in Hin.
  apply elem_of_cons in Hin as [[=] | Hin].
  apply elem_of_cons in Hin as [[=] | Hin].
  apply elem_of_cons in Hin as [[=] | Hin].
  apply list_elem_of_singleton in Hin. injection Hin as ->. reflexivity.
Defined.

Lemma Ecrecover_conventions_agree_witness :
  Ecrecover (H := Mock.lib) (Mock.digest [])
    (<[64%nat := byte_add (byte_of 1) 27]> (replicate 65 (byte_of 1)))
  = Ecrecover (H := Mock.lib) (Mock.digest []) (replicate 65 (byte_of 1)).
Proof.
  apply (Ecrecover_conventions_agree (H := Mock.lib) (Mock.digest [])
           (replicate 65 (byte_of 1)) (byte_of 1));
    [reflexivity | reflexivity | right; reflexivity].
Defined.

Lemma Ecrecover_returns_witness :
  exists (pub address : bytes) (err : option error),
    Ecrecover (H := Mock.lib) (Mock.digest []) (replicate 65 (byte_of 1))
    = Returns (pub, address, err).
Proof.
  destruct (Ecrecover_returns (H := Mock.lib) (Mock.digest []) (replicate 65 (byte_of 1)))
    as (pub & address & err & Hret & _).
  - intros h s pub. cbn. unfold Mock.recover.
    destruct (s !! 64%nat) as [v | ]; [ | discriminate].
    destruct ((length s =? 65)%nat && (N_of_ascii v <? 4)%N); [ | discriminate].
    intros [= <-]. discriminate.
  - intros b. reflexivity.
  - exists pub, address, err. exact Hret.
Defined.

Lemma SignTypedData_Ecrecover_witness :
  exists (hash sig : bytes),
    EIP712Hash (H := Mock.lib) (Mock.mkTypedData "Mail" ∅ ∅ ["EIP712Domain"; "Mail"])
    = (hash, None)
    /\ SignTypedData Mock.signer (Mock.mkTypedData "Mail" ∅ ∅ ["EIP712Domain"; "Mail"])
       = Returns (sig, None)
    /\ Ecrecover (H := Mock.lib) hash sig
       = Returns (GetPublicKey Mock.signer, Signer_Address Mock.signer, None).
Proof.
  destruct (proj2 (SignTypedData_Ecrecover Mock_cryptoLaws "01" Mock.signer
                     (Mock.mkTypedData "Mail" ∅ ∅ ["EIP712Domain"; "Mail"]) eq_refl)
                  _ eq_refl)
    as (sig & v & Hsig & _ & _ & Hrec).
  eexists _, sig. split; [reflexivity | split; [exact Hsig | exact Hrec]].
Defined.

Lemma Decrypt_Encrypt_witness :
  exists ct : bytes,
    Encrypt (H0 := MockRest.libraries) 9%N (GetPublicKeyHex Mock.signer)
      (bytes_of_string "hello")
    = Returns (ct, None)
    /\ Decrypt (H0 := MockRest.libraries) Mock.signer ct
       = (bytes_of_string "hello", None).
Proof.
  eexists. split; [vm_compute; reflexivity | ].
  apply (Decrypt_Encrypt (H0 := MockRest.libraries) Mock.signer 9%N
           (bytes_of_string "hello")).
  - vm_compute. reflexivity.
  - vm_compute. reflexivity.
  - intros c Henc. vm_compute in Henc. injection Henc as <-. vm_compute. reflexivity.
  - vm_compute. reflexivity.
Defined.

Lemma DecodeFromMethod_hex_as_bytes_witness :
  DecodeFromMethod (Mock.token None Mock.deadNode) "balanceOf"
    (AnyString "0x00000000000000000000000000000000000000000000000000000000000003e8")
    None
  = DecodeFromMethod (Mock.token None Mock.deadNode) "balanceOf"
      (AnyBytes (replicate 30 (byte_of 0) ++ [byte_of 3; byte_of 232])) None.
Proof.
  apply DecodeFromMethod_hex_as_bytes. vm_compute. reflexivity.
Defined.

Lemma DecodeData_EncodeData_witness :
  exists params : gmap string any,
    DecodeData (Mock.token None Mock.deadNode)
      (fst (EncodeData (Mock.token None Mock.deadNode) "transfer"
              [AnyAddress Mock.recipient; AnyInt 100]))
    = Returns ("transfer", Some params, None)
    /\ DecodeDataHex (H0 := MockRest.libraries) (Mock.token None Mock.deadNode)
         (fst (EncodeDataHex (Mock.token None Mock.deadNode) "transfer"
                 [AnyAddress Mock.recipient; AnyInt 100]))
       = Returns ("transfer", Some params, None).
Proof.
  destruct (DecodeData_EncodeData (H0 := MockRest.libraries)
              (Mock.token None Mock.deadNode) "transfer"
              [AnyAddress Mock.recipient; AnyInt 100] Mock.transfer
              (replicate 64 (byte_of 0)) eq_refl eq_refl eq_refl)
    as [Hbytes Hhex].
  eexists. split.
  - rewrite Hbytes. reflexivity.
  - rewrite Hhex; [rewrite Hbytes; reflexivity | vm_compute; reflexivity].
Defined.

Lemma DecodeEvent_topic_count_witness :
  exists e : error,
    DecodeEvent (H0 := MockRest.libraries) (Mock.token None Mock.deadNode)
      [abiEvent.ID MockRest.transferEvent; Mock.digest []] []
    = Returns ("Transfer", Some ∅, Some e).
Proof.
  apply (DecodeEvent_topic_count (H0 := MockRest.libraries)
           (Mock.token None Mock.deadNode) (abiEvent.ID MockRest.transferEvent)
           [Mock.digest []] [] MockRest.transferEvent).
  - intros l. reflexivity.
  - intros v fields topics Hlen. cbn. unfold MockRest.parseTopics.
    rewrite bool_decide_eq_false_2; [eexists; reflexivity | exact Hlen].
  - cbn. unfold MockRest.eventByID. rewrite bool_decide_eq_true_2; reflexivity.
  - vm_compute. lia.
Defined.

Lemma ExecMethod_signs_packed_call_witness :
  ExecMethod (Mock.token (Some (Mock.wallet Mock.deadNode)) Mock.deadNode) "approve" None
    [] []
  = (Returns ("", Some (ErrExternal "method not found")), []).
Proof.
  exact (proj1 (ExecMethod_signs_packed_call
                  (Mock.token (Some (Mock.wallet Mock.deadNode)) Mock.deadNode)
                  (Mock.wallet Mock.deadNode) "approve" None [] [] eq_refl)
               [] (ErrExternal "method not found") eq_refl).
Defined.

Lemma NewWallet_explicit_chain_id_witness :
  exists w : Wallet,
    NewWallet (H0 := MockRest.libraries) "01" "http://localhost:8545"
      ([OptClient (Some Mock.deadNode)] ++ OptChainID (Some 5) :: [OptClientOption (H0 := MockRest.libraries) 3])
    = (Returns (Some w, None), [])
    /\ ChainID w = Some 5.
Proof.
  destruct (NewWallet_explicit_chain_id (H0 := MockRest.libraries) "01"
              "http://localhost:8545" Mock.signer 5
              [OptClient (Some Mock.deadNode)] [OptClientOption (H0 := MockRest.libraries) 3])
    as (w & Hrun & Hchain & _).
  - intros Hin. apply list_elem_of_singleton in Hin. discriminate Hin.
  - repeat constructor.
  - reflexivity.
  - vm_compute. discriminate.
  - exists w. split; [exact Hrun | exact Hchain].
Defined.

Lemma NewWallet_from_wallet_witness :
  NewWallet (H0 := MockRest.libraries) "01" EmptyString
    ([] ++ OptWallet (Some (Mock.wallet (Mock.node 7 21000 20))) :: [OptOther])
  = (Returns (Some (mkWallet (Signer_Address Mock.signer) (Some 1) Mock.signer
                      (Mock.node 7 21000 20)), None), []).
Proof.
  apply (proj1 (NewWallet_from_wallet (H0 := MockRest.libraries) "01" EmptyString
                  Mock.signer (Mock.wallet (Mock.node 7 21000 20)) [] [OptOther]
                  ltac:(intros Hin; inversion Hin)
                  ltac:(repeat constructor)
                  eq_refl
                  ltac:(vm_compute; discriminate))).
  reflexivity.
Defined.

Lemma NewWallet_asks_version_witness :
  NewWallet (H0 := MockRest.libraries) "01" "rpc" (map (OptClientOption (H0 := MockRest.libraries)) [3])
  = (Returns (Some (mkWallet (Signer_Address Mock.signer) (Some 6) Mock.signer
                      (ethrpc_New (Libraries := MockRest.libraries) "rpc" [3])), None),
     [NetVersionRequest (ethrpc_New (Libraries := MockRest.libraries) "rpc" [3])]).
Proof.
  apply (proj2 (proj2 (NewWallet_asks_version (H0 := MockRest.libraries) "01" "rpc"
                         Mock.signer
                         ([3] : list (ClientOption (Libraries := MockRest.libraries)))
                         eq_refl)) "6" 6);
    vm_compute; reflexivity.
Defined.

Lemma NewWallet_bad_key_witness :
  NewWallet (H0 := MockRest.libraries) "zz" "rpc" [OptChainID (Some 1)]
  = (Returns (None, Some (ErrExternal "invalid hex character")), []).
Proof.
  apply (NewWallet_bad_key (H0 := MockRest.libraries) "zz" "rpc" [OptChainID (Some 1)]
           None).
  - intros Hin. apply list_elem_of_singleton in Hin. discriminate Hin.
  - reflexivity.
Defined.

Lemma NewWallet_version_option_witness :
  NewWallet (H0 := MockRest.libraries) "01" "rpc"
    ([OptClient (Some Mock.deadNode)] ++ OptVersion "mainnet" :: [])
  = (Returns (None, Some (ErrWrongChainID "mainnet")), [])
  /\ exists w : Wallet,
       NewWallet (H0 := MockRest.libraries) "01" "rpc"
         ([OptClient (Some Mock.deadNode)] ++ OptVersion "11155111" :: [])
       = (Returns (Some w, None), [])
       /\ ChainID w = Some 11155111.
Proof.
  split.
  - apply (proj1 (NewWallet_version_option (H0 := MockRest.libraries) "01" "rpc"
                    "mainnet" Mock.signer [OptClient (Some Mock.deadNode)] []
                    ltac:(repeat constructor) ltac:(constructor) eq_refl
                    ltac:(discriminate))).
    reflexivity.
  - destruct (proj2 (NewWallet_version_option (H0 := MockRest.libraries) "01" "rpc"
                       "11155111" Mock.signer [OptClient (Some Mock.deadNode)] []
                       ltac:(repeat constructor) ltac:(constructor) eq_refl
                       ltac:(discriminate))
                    11155111 ltac:(vm_compute; reflexivity))
      as (w & Hrun & Hchain & _).
    exists w. split; [exact Hrun | exact Hchain].
Defined.

Lemma InitTxOpts_default_fee_triples_witness :
  GetOldFee (mkTxOpts (Some 7) (Some 21000) (Some 20) (Some 20) (Some 20))
  = (Some 420000, None)
  /\ GetNewFee (mkTxOpts (Some 7) (Some 21000) (Some 20) (Some 20) (Some 20))
     = (Some 1260000, None).
Proof.
  destruct (InitTxOpts_default_fee_triples (Mock.wallet (Mock.node 7 21000 20))
              Mock.recipient None [] emptyTxOpts []
              (mkTxOpts (Some 7) (Some 21000) (Some 20) (Some 20) (Some 20))
              eq_refl (or_introl eq_refl))
    as (fee & Hold & Hnew).
  cbn in Hold. injection Hold as <-. split; [reflexivity | exact Hnew].
Defined.

(** ** Legacy sends *)

Section LegacyProperties.

Context `{Libraries}.

(** The caps of the options change neither what [InitTxOpts] asks nor the
    nonce, gas limit and gas price it resolves. *)
Lemma InitTxOpts_caps_irrelevant (w : Wallet) (to : bytes) (amount : option Z)
    (data : bytes) (opts : TxOpts) (tip cap : option Z) (h : list Event) :
  exists (o o' : TxOpts) (err : option error) (pre : list Event),
    InitTxOpts w to amount data (Some opts) h = (Returns (o, err), pre)
    /\ InitTxOpts w to amount data (Some (set_GasFeeCap cap (set_GasTipCap tip opts))) h
       = (Returns (o', err), pre)
    /\ Nonce o' = Nonce o /\ GasLimit o' = GasLimit o /\ GasPrice o' = GasPrice o.
Proof.
  destruct opts as [[n|] [gl|] [gp|] [t|] [c|]], tip as [tip|], cap as [cap|];
    run_steps; eexists _, _, _, _; repeat split.
Qed.

(** X21.  When [SendLegacyTx] succeeds, it has made the requests of the
    resolution, signed one legacy transaction and submitted it.  The
    transaction carries the resolved nonce and gas limit (as [uint64]), the
    resolved gas price, the recipient, the data and the amount, a nil
    amount being signed as zero; what is submitted is the hex form of the
    signed transaction's binary form, and the hash returned is the node's
    answer. *)
Theorem SendLegacyTx_success (w : Wallet) (to : bytes) (amount : option Z)
    (data : bytes) (opts : option TxOpts) (h : list Event) (txHash : string)
    (evs : list LegacyEvent) :
  SendLegacyTx w to amount data opts h = (Returns (txHash, None), evs) ->
  exists (o : TxOpts) (pre : list Event) (nonce gasLimit : Z)
         (signed : Transaction) (raw : bytes),
    InitTxOpts w to amount data opts h = (Returns (o, None), pre)
    /\ Nonce o = Some nonce
    /\ GasLimit o = Some gasLimit
    /\ evs = map Asked pre
             ++ [KeySignLegacyTx
                   {| legacy.Nonce := uint64_of_int nonce;
                      legacy.GasPrice := GasPrice o;
                      legacy.Gas := uint64_of_int gasLimit;
                      legacy.To := to;
                      legacy.Value := Some (default 0 amount);
                      legacy.Data := data |} (ChainID w);
                 Asked (EthSendRawTransaction (hexutil_Encode raw))]
    /\ SignLegacy (key (Wallet_Signer w)) (ChainID w)
         {| legacy.Nonce := uint64_of_int nonce;
            legacy.GasPrice := GasPrice o;
            legacy.Gas := uint64_of_int gasLimit;
            legacy.To := to;
            legacy.Value := Some (default 0 amount);
            legacy.Data := data |} = (Some signed, None)
    /\ MarshalBinary signed = (raw, None)
    /\ onEthSendRawTransaction (Wallet_Client w) (h ++ pre) (hexutil_Encode raw)
       = (txHash, None).
Proof.
  unfold SendLegacyTx, SignLegacyTx.
  destruct (InitTxOpts w to amount data opts h) as [[[o [e | ]] | ] pre];
    try discriminate.
  destruct (Nonce o) as [nonce | ] eqn:Hnonce; [ | discriminate].
  destruct (GasLimit o) as [gasLimit | ] eqn:Hlimit; [ | discriminate].
  replace (match amount with Some a => Some a | None => Some 0 end)
    with (Some (default 0 amount)) by (destruct amount; reflexivity).
  destruct (SignLegacy _ _ _) as [[signed | ] [e | ]] eqn:Hsign; try discriminate.
  destruct (MarshalBinary signed) as [raw [e | ]] eqn:Hraw; try discriminate.
  intros [= Hsend <-].
  exists o, pre, nonce, gasLimit, signed, raw.
  repeat split; try reflexivity; assumption.
Qed.

(** X22.  [SendLegacyTx] does not look at the caps: options that differ only
    in GasTipCap and GasFeeCap give the same result and the same events. *)
Theorem SendLegacyTx_ignores_caps (w : Wallet) (to : bytes) (amount : option Z)
    (data : bytes) (opts : TxOpts) (tip cap : option Z) (h : list Event) :
  SendLegacyTx w to amount data (Some (set_GasFeeCap cap (set_GasTipCap tip opts))) h
  = SendLegacyTx w to amount data (Some opts) h.
Proof.
  unfold SendLegacyTx.
  destruct (InitTxOpts_caps_irrelevant w to amount data opts tip cap h)
    as (o & o' & err & pre & -> & -> & -> & -> & ->).
  reflexivity.
Qed.

End LegacyProperties.

Lemma SendLegacyTx_success_witness :
  exists (txHash : string) (evs : list LegacyEvent) (tx : legacy.Tx) (raw : string),
    SendLegacyTx (H0 := MockRest.libraries) (Mock.wallet (Mock.node 7 21000 20))
      Mock.recipient None []
      (Some (mkTxOpts None (Some 21000) (Some 15000000000) None None)) []
    = (Returns (txHash, None), evs)
    /\ evs = [Asked (EthGetTransactionCount
                      (Wallet_GetAddress (Mock.wallet (Mock.node 7 21000 20))) "pending");
             KeySignLegacyTx tx (Some 1);
             Asked (EthSendRawTransaction raw)]
    /\ legacy.GasPrice tx = Some 15000000000
    /\ legacy.Value tx = Some 0.
Proof.
  assert (Hrun : { r : string * list LegacyEvent |
                   SendLegacyTx (H0 := MockRest.libraries)
                     (Mock.wallet (Mock.node 7 21000 20)) Mock.recipient None []
                     (Some (mkTxOpts None (Some 21000) (Some 15000000000) None None)) []
                   = (Returns (fst r, None), snd r) }).
  { eexists (_, _). vm_compute. reflexivity. }
  destruct Hrun as [[txHash evs] Hrun]. cbn [fst snd] in Hrun.
  destruct (SendLegacyTx_success _ _ _ _ _ _ _ _ Hrun)
    as (o & pre & nonce & gasLimit & signed & raw & Hinit & _ & _ & Hevs & _).
  vm_compute in Hinit. injection Hinit as <- <-.
  eexists txHash, evs, _, _. split; [exact Hrun | ].
  split; [exact Hevs | split; reflexivity].
Defined.

Lemma SendLegacyTx_ignores_caps_witness :
  SendLegacyTx (H0 := MockRest.libraries) (Mock.wallet (Mock.node 7 21000 20))
    Mock.recipient (Some 5) []
    (Some (mkTxOpts None None None (Some 2000000000) (Some 30000000000))) []
  = SendLegacyTx (H0 := MockRest.libraries) (Mock.wallet (Mock.node 7 21000 20))
      Mock.recipient (Some 5) [] (Some emptyTxOpts) [].
Proof.
  exact (SendLegacyTx_ignores_caps (H0 := MockRest.libraries)
           (Mock.wallet (Mock.node 7 21000 20)) Mock.recipient (Some 5) []
           emptyTxOpts (Some 2000000000) (Some 30000000000) []).
Defined.
